(** * Motor queue, daily quota and admin shutdown of the Go MQTT backend

    A shallow embedding of the two revisions of [handlers/mqtt.go] found in
    the repository:

    - [handlers_shutdown]: the revision with the admin force-shutdown
      (quota check in seconds, actuator calls commented out);
    - [handlers]: the revision with the [DeviceActivation] audit log
      (quota check in minutes, actuator really driven).

    Package-level variables become fields of a [World] record that every
    handler threads through a small state monad.  Each handler call and each
    iteration of the background loop is one atomic transition. *)

From stdpp Require Import base tactics option list strings gmap.
From Stdlib Require Import ZArith Lia.

Local Open Scope Z_scope.
Local Open Scope string_scope.
Local Open Scope list_scope.

(** ** Go's [time] package *)

Module time.

(** [time.Duration] is an [int64] count of nanoseconds. *)
Definition Duration := Z.

(** A [time.Time] instant, in nanoseconds since the zero [Time]. *)
Definition Time := Z.

(** Two's complement wrap-around of Go's [int64] arithmetic. *)
Definition int64 (z : Z) : Z := (z + 2 ^ 63) mod 2 ^ 64 - 2 ^ 63.

Definition is_int64 (z : Z) : Prop := - 2 ^ 63 <= z < 2 ^ 63.

Definition Nanosecond : Duration := 1.
Definition Second : Duration := 1000000000 * Nanosecond.
Definition Minute : Duration := 60 * Second.
Definition Hour : Duration := 60 * Minute.

(** [a + b] and [a * b] on [time.Duration]. *)
Definition add (a b : Duration) : Duration := int64 (a + b).
Definition mul (a b : Duration) : Duration := int64 (a * b).

(** [time.Duration(n)] for an [int] [n] (64 bits wide). *)
Definition of_int (n : Z) : Duration := int64 n.

(** [t.After(u)] and [t.Add(d)]. *)
Definition After (t u : Time) : bool := bool_decide (u < t).
Definition Add (t : Time) (d : Duration) : Time := t + d.

(** The zero value [time.Time{}]. *)
Definition zero : Time := 0.

End time.

(** ** Go values, [net/http] codes and the parts of [gin] the handlers use *)

(** Why [ShouldBindJSON] failed; stands for the text of [err.Error()]. *)
Inductive BindError :=
| SyntaxError
| UnmarshalTypeError (field : string)
| RequiredError (field : string).

(** A Go [interface{}] value, as stored in a [gin.H] or in the context keys.
    A [float64] is kept by the [uint] it converts to. *)
Inductive Value :=
| VString (s : string)
| VTime (t : time.Time)
| VBool (b : bool)
| VInt (z : Z)
| VUint (n : N)
| VFloat64 (n : N)
| VError (e : BindError).

(** A JSON value of a request body. *)
Inductive Json :=
| JNull
| JInt (n : Z)
| JString (s : string)
| JOther.

Module http.
Definition StatusOK : Z := 200.
Definition StatusBadRequest : Z := 400.
Definition StatusUnauthorized : Z := 401.
Definition StatusTooManyRequests : Z := 429.
Definition StatusInternalServerError : Z := 500.
Definition StatusServiceUnavailable : Z := 503.
End http.

Module gin.

(** [gin.H], a [map[string]interface{}]. *)
Abbreviation H := (gmap string Value).

(** What [c.JSON(code, obj)] writes. *)
Record Response := JSON { code : Z; obj : gmap string Value }.

(** The request body: not JSON at all, or a JSON object. *)
Inductive Body :=
| Malformed
| Object (fields : gmap string Json).

(** The part of [*gin.Context] a handler reads: the body and the keys
    set by the middleware ([c.Set] / [c.Get]). *)
Record Context := { body : Body; keys : gmap string Value }.

(** [c.ShouldBindJSON(&input)] for
    [struct { Duration int `json:"duration" binding:"required"` }]:
    the decoder leaves an absent or null field at 0, rejects what is not
    an integer of the [int] range, and the [required] validator then rejects
    the zero value. *)
Definition ShouldBindJSON_Duration (c : Context) : BindError + Z :=
  match body c with
  | Malformed => inl SyntaxError
  | Object fields =>
      match fields !! "duration" with
      | None | Some JNull => inl (RequiredError "Duration")
      | Some (JInt n) =>
          if bool_decide (time.is_int64 n) then
            if bool_decide (n = 0) then inl (RequiredError "Duration")
            else inr n
          else inl (UnmarshalTypeError "duration")
      | Some _ => inl (UnmarshalTypeError "duration")
      end
  end.

(** The same for [struct { Reason string `json:"reason" binding:"required"` }]. *)
Definition ShouldBindJSON_Reason (c : Context) : BindError + string :=
  match body c with
  | Malformed => inl SyntaxError
  | Object fields =>
      match fields !! "reason" with
      | None | Some JNull => inl (RequiredError "Reason")
      | Some (JString s) =>
          if bool_decide (s = "") then inl (RequiredError "Reason")
          else inr s
      | Some _ => inl (UnmarshalTypeError "reason")
      end
  end.

End gin.

(** How a handler call ends: it wrote a response and returned, its goroutine
    is parked on the send to the full channel, or it panicked. *)
Inductive Outcome :=
| Responded (r : gin.Response)
| Parked
| Panicked.

(** ** [models] *)

Module models.

Record User := { ID : N; Email : string; Password : string; Role : string }.

Record DeviceActivation :=
  { ActivationID : N; UserID : N; RequestAt : time.Time;
    Duration : time.Duration }.

End models.

(** ** Shared state *)

(** [MotorRequest] of [mqtt.go]. *)
Record MotorRequest :=
  { UserID : N; RequestAt : time.Time; Duration : time.Duration }.

(** A buffered channel: the buffer, and the values of the senders parked
    because the buffer was full, both oldest first. *)
Record Chan := { buf : list MotorRequest; sendq : list MotorRequest }.

(** [make(chan *MotorRequest, 100)]. *)
Definition motorQueue_cap : nat := 100.

(** The variables guarded by [motorQuotaMutex]. *)
Record Quota := { totalMotorTime : time.Duration; quotaResetTime : time.Time }.

(** The variables guarded by [shutdownMutex]. *)
Record Shutdown :=
  { isShutdown : bool; shutdownReason : string; shutdownBy : string;
    shutdownAt : time.Time }.

(** What the program did to the outside, in program order. *)
Inductive Event :=
| Publish (topic payload : string)
| Sleep (d : time.Duration)
| Create (a : models.DeviceActivation) (ok : bool)
| Send (r : MotorRequest).

(** The collaborators: the clock ([wall] is the last reading, [ticks] the
    steps by which the next readings advance), the database and the log
    of effects. *)
Record Env :=
  { wall : time.Time; ticks : list N;
    users : list models.User; activations : list models.DeviceActivation;
    dbFailing : bool;
    trace : list Event }.

Record World :=
  { motorQueue : Chan; quota : Quota; shutdown : Shutdown; env : Env }.

Definition set_motorQueue (q : Chan) (w : World) : World :=
  {| motorQueue := q; quota := quota w; shutdown := shutdown w; env := env w |}.
Definition set_quota (q : Quota) (w : World) : World :=
  {| motorQueue := motorQueue w; quota := q; shutdown := shutdown w; env := env w |}.
Definition set_shutdown (s : Shutdown) (w : World) : World :=
  {| motorQueue := motorQueue w; quota := quota w; shutdown := s; env := env w |}.
Definition set_env (e : Env) (w : World) : World :=
  {| motorQueue := motorQueue w; quota := quota w; shutdown := shutdown w; env := e |}.

Definition set_clock (t : time.Time) (ts : list N) (e : Env) : Env :=
  {| wall := t; ticks := ts; users := users e; activations := activations e;
     dbFailing := dbFailing e; trace := trace e |}.
Definition set_activations (l : list models.DeviceActivation) (e : Env) : Env :=
  {| wall := wall e; ticks := ticks e; users := users e; activations := l;
     dbFailing := dbFailing e; trace := trace e |}.
Definition log (ev : Event) (e : Env) : Env :=
  {| wall := wall e; ticks := ticks e; users := users e;
     activations := activations e; dbFailing := dbFailing e;
     trace := trace e ++ [ev] |}.

(** [motorQuota = 1 * time.Hour]; never assigned again. *)
Definition motorQuota : time.Duration := time.mul 1 time.Hour.

(** ** The state monad of the handlers *)

Definition St (A : Type) : Type := World → A * World.

#[global] Instance St_ret : MRet St := λ A a w, (a, w).
#[global] Instance St_bind : MBind St :=
  λ A B f m w, let '(a, w') := m w in f a w'.

Definition gets {A} (f : World → A) : St A := λ w, (f w, w).
Definition modify (f : World → World) : St unit := λ w, ((), f w).

(** [time.Now()]: the clock moves on by the next tick and is read. *)
Definition time_Now : St time.Time := λ w,
  let t := wall (env w) + Z.of_N (hd 0%N (ticks (env w))) in
  (t, set_env (set_clock t (tl (ticks (env w))) (env w)) w).

(** [time.Sleep(d)]: returns at once when [d <= 0]. *)
Definition time_Sleep (d : time.Duration) : St unit := λ w,
  let e := log (Sleep d) (env w) in
  ((), set_env (set_clock (wall e + Z.max 0 d) (ticks e) e) w).

(** [mqtt.Publish(topic, payload)]; every caller drops the error. *)
Definition mqtt_Publish (topic payload : string) : St unit :=
  modify (λ w, set_env (log (Publish topic payload) (env w)) w).

(** [motorQueue <- r]: into the buffer when there is room, otherwise the
    sender parks behind the earlier parked senders.  Returns whether the
    send completed. *)
Definition chan_send (r : MotorRequest) : St bool := λ w,
  let w := set_env (log (Send r) (env w)) w in
  let q := motorQueue w in
  if bool_decide (length (buf q) < motorQueue_cap)%nat then
    (true, set_motorQueue {| buf := buf q ++ [r]; sendq := sendq q |} w)
  else
    (false, set_motorQueue {| buf := buf q; sendq := sendq q ++ [r] |} w).

(** One receive of [for req := range motorQueue]: the oldest buffered value,
    the oldest parked sender then completing into the freed slot (its
    handler goes on to answer "Request queued"; that late answer is not
    recorded); [None] when the channel is empty and the loop parks. *)
Definition chan_recv : St (option MotorRequest) := λ w,
  let q := motorQueue w in
  match buf q with
  | [] => (None, w)
  | r :: rest =>
      match sendq q with
      | [] => (Some r, set_motorQueue {| buf := rest; sendq := [] |} w)
      | s :: parked =>
          (Some r, set_motorQueue {| buf := rest ++ [s]; sendq := parked |} w)
      end
  end.

(** The values in the channel, oldest first. *)
Definition pending (q : Chan) : list MotorRequest := buf q ++ sendq q.

(** What the Go runtime keeps true of a buffered channel: the buffer never
    exceeds the capacity, and senders are parked only while it is full. *)
Definition chan_wf (q : Chan) : Prop :=
  (length (buf q) ≤ motorQueue_cap)%nat ∧
  (sendq q = [] ∨ length (buf q) = motorQueue_cap).

(** The block every quota check starts with:
    [if time.Now().After(quotaResetTime) { totalMotorTime = 0;
     quotaResetTime = time.Now().Add(24 * time.Hour) }]. *)
Definition quotaWindowReset : St unit :=
  now ← time_Now;
  reset ← gets (λ w, quotaResetTime (quota w));
  if time.After now reset then
    now' ← time_Now;
    modify (set_quota
      {| totalMotorTime := 0;
         quotaResetTime := time.Add now' (time.mul 24 time.Hour) |})
  else mret ().

(** ** [mqtt.go] with the admin force shutdown *)

Module handlers_shutdown.

(** The body of [for req := range motorQueue]: a request dequeued during a
    shutdown or over the quota is dropped by [continue]; the three
    motor-control statements after the accounting are commented out in the
    source, so nothing is published. *)
Definition processMotorQueue_body (req : MotorRequest) : St unit :=
  s ← gets shutdown;
  if isShutdown s then mret ()
  else
    quotaWindowReset;;
    total ← gets (λ w, totalMotorTime (quota w));
    if bool_decide (time.add total (Duration req) > motorQuota) then mret ()
    else
      modify (λ w, set_quota
        {| totalMotorTime := time.add total (Duration req);
           quotaResetTime := quotaResetTime (quota w) |} w).

(** [n] iterations of [processMotorQueue]; it parks on the empty channel. *)
Fixpoint processMotorQueue (n : nat) : St unit :=
  match n with
  | O => mret ()
  | S n' =>
      next ← chan_recv;
      match next with
      | None => mret ()
      | Some req => processMotorQueue_body req;; processMotorQueue n'
      end
  end.

Definition EnqueueMotorRequest (c : gin.Context) : St Outcome :=
  s ← gets shutdown;
  if isShutdown s then
    mret (Responded (gin.JSON http.StatusServiceUnavailable
      {[ "error" := VString "Motor system is currently shut down";
         "reason" := VString (shutdownReason s);
         "shutdown_by" := VString (shutdownBy s);
         "shutdown_at" := VTime (shutdownAt s) ]}))
  else
    match gin.ShouldBindJSON_Duration c with
    | inl err =>
        mret (Responded (gin.JSON http.StatusBadRequest
          {[ "error" := VError err ]}))
    | inr input_Duration =>
        quotaWindowReset;;
        total ← gets (λ w, totalMotorTime (quota w));
        if bool_decide
             (time.add total
                (time.mul (time.of_int input_Duration) time.Second)
              > motorQuota)
        then
          mret (Responded (gin.JSON http.StatusTooManyRequests
            {[ "error" :=
                 VString "Daily motor-on quota reached. Try again after 24 hours." ]}))
        else
          now ← time_Now;
          sent ← chan_send
            {| UserID := 0; RequestAt := now;
               Duration := time.mul (time.of_int input_Duration) time.Second |};
          if sent : bool then
            mret (Responded (gin.JSON http.StatusOK
              {[ "message" := VString "Request queued" ]}))
          else mret Parked
    end.

(** [database.DB.First(&user, id)]. *)
Definition DB_First (id : N) : St (option models.User) :=
  gets (λ w,
    if dbFailing (env w) then None
    else find (λ u, bool_decide (models.ID u = id)) (users (env w))).

Definition AdminForceShutdown (c : gin.Context) : St Outcome :=
  match gin.ShouldBindJSON_Reason c with
  | inl err =>
      mret (Responded (gin.JSON http.StatusBadRequest
        {[ "error" := VError err ]}))
  | inr input_Reason =>
      match gin.keys c !! "user_id" with
      | None =>
          mret (Responded (gin.JSON http.StatusUnauthorized
            {[ "error" := VString "user ID not found in token" ]}))
      | Some (VFloat64 userID) =>
          found ← DB_First userID;
          match found with
          | None =>
              mret (Responded (gin.JSON http.StatusUnauthorized
                {[ "error" := VString "user not found" ]}))
          | Some user =>
              now ← time_Now;
              modify (set_shutdown
                {| isShutdown := true; shutdownReason := input_Reason;
                   shutdownBy := models.Email user; shutdownAt := now |});;
              mqtt_Publish "motor/control" "off";;
              s ← gets shutdown;
              mret (Responded (gin.JSON http.StatusOK
                {[ "message" := VString "Motor system shut down successfully";
                   "reason" := VString (shutdownReason s);
                   "shutdown_by" := VString (shutdownBy s);
                   "shutdown_at" := VTime (shutdownAt s) ]}))
          end
      | Some _ =>
          mret (Responded (gin.JSON http.StatusUnauthorized
            {[ "error" := VString "invalid user ID format" ]}))
      end
  end.

Definition AdminRestart (c : gin.Context) : St Outcome :=
  modify (set_shutdown
    {| isShutdown := false; shutdownReason := ""; shutdownBy := "";
       shutdownAt := time.zero |});;
  now ← time_Now;
  mret (Responded (gin.JSON http.StatusOK
    {[ "message" := VString "Motor system restarted successfully";
       "restart_at" := VTime now ]})).

End handlers_shutdown.

(** ** [handlers/mqtt.go], with the activation log *)

Module handlers.

(** The body of [for req := range motorQueue]: account, then drive the motor. *)
Definition processMotorQueue_body (req : MotorRequest) : St unit :=
  quotaWindowReset;;
  modify (λ w, set_quota
    {| totalMotorTime := time.add (totalMotorTime (quota w)) (Duration req);
       quotaResetTime := quotaResetTime (quota w) |} w);;
  mqtt_Publish "motor/control" "on";;
  time_Sleep (Duration req);;
  mqtt_Publish "motor/control" "off".

Fixpoint processMotorQueue (n : nat) : St unit :=
  match n with
  | O => mret ()
  | S n' =>
      next ← chan_recv;
      match next with
      | None => mret ()
      | Some req => processMotorQueue_body req;; processMotorQueue n'
      end
  end.

(** [database.DB.Create(&logEntry)]: the row gets the next key. *)
Definition DB_Create (a : models.DeviceActivation) : St bool := λ w,
  let e := env w in
  if dbFailing e then (false, set_env (log (Create a false) e) w)
  else
    let row :=
      {| models.ActivationID := N.of_nat (S (length (activations e)));
         models.UserID := models.UserID a;
         models.RequestAt := models.RequestAt a;
         models.Duration := models.Duration a |} in
    (true, set_env (log (Create row true)
                      (set_activations (activations e ++ [row]) e)) w).

Definition EnqueueMotorRequest (c : gin.Context) : St Outcome :=
  match gin.ShouldBindJSON_Duration c with
  | inl err =>
      mret (Responded (gin.JSON http.StatusBadRequest
        {[ "error" := VError err ]}))
  | inr input_Duration =>
      quotaWindowReset;;
      total ← gets (λ w, totalMotorTime (quota w));
      if bool_decide
           (time.add total (time.mul (time.of_int input_Duration) time.Minute)
            > motorQuota)
      then
        mret (Responded (gin.JSON http.StatusTooManyRequests
          {[ "error" :=
               VString "Daily motor-on quota reached. Try again after 24 hours." ]}))
      else
        match gin.keys c !! "userID" with
        | None =>
            mret (Responded (gin.JSON http.StatusUnauthorized
              {[ "error" := VString "user ID not found in token" ]}))
        | Some (VUint userID) =>
            logged_at ← time_Now;
            ok ← DB_Create
              {| models.ActivationID := 0; models.UserID := userID;
                 models.RequestAt := logged_at;
                 models.Duration :=
                   time.mul (time.of_int input_Duration) time.Minute |};
            if ok : bool then
              now ← time_Now;
              sent ← chan_send
                {| UserID := 0; RequestAt := now;
                   Duration :=
                     time.mul (time.of_int input_Duration) time.Minute |};
              if sent : bool then
                mret (Responded (gin.JSON http.StatusOK
                  {[ "message" := VString "Request queued" ]}))
              else mret Parked
            else
              mret (Responded (gin.JSON http.StatusInternalServerError
                {[ "error" := VString "failed to log request" ]}))
        | Some _ => mret Panicked
        end
  end.

End handlers.

(** ** Runs, observations and sample inputs *)

(** The requests sent to the channel, in the order of the sends. *)
Definition sends (tr : list Event) : list MotorRequest :=
  omap (λ e, match e with Send r => Some r | _ => None end) tr.

(** The actuator commands and the holds between them. *)
Definition is_motor (e : Event) : bool :=
  match e with
  | Publish _ _ | Sleep _ => true
  | _ => false
  end.

Definition motor_events (tr : list Event) : list Event :=
  filter (λ e, is_motor e) tr.

(** What driving the motor for one request looks like. *)
Definition actuation (r : MotorRequest) : list Event :=
  [Publish "motor/control" "on"; Sleep (Duration r);
   Publish "motor/control" "off"].

(** No "on" is published while the motor is [running]. *)
Fixpoint one_at_a_time (running : bool) (tr : list Event) : bool :=
  match tr with
  | [] => true
  | Publish _ payload :: tr' =>
      if bool_decide (payload = "on")
      then negb running && one_at_a_time true tr'
      else one_at_a_time false tr'
  | _ :: tr' => one_at_a_time running tr'
  end.

(** A handler call ended in "Request queued". *)
Definition queued : Outcome :=
  Responded (gin.JSON http.StatusOK {[ "message" := VString "Request queued" ]}).

(** The same world at another point of the clock. *)
Definition at_clock (t : time.Time) (ts : list N) (w : World) : World :=
  set_env (set_clock t ts (env w)) w.

(** Interleavings of admission calls and loop iterations of [handlers]. *)
Inductive Action :=
| Request (c : gin.Context)
| Iterate.

Definition step (w : World) (a : Action) : World :=
  match a with
  | Request c => (handlers.EnqueueMotorRequest c w).2
  | Iterate => (handlers.processMotorQueue 1 w).2
  end.

Definition run (acts : list Action) (w : World) : World := foldl step w acts.

(** The world right after [init()] at time 0, with one admin in the database. *)
Definition idle : World :=
  {| motorQueue := {| buf := []; sendq := [] |};
     quota := {| totalMotorTime := 0;
                 quotaResetTime := time.Add 0 (time.mul 24 time.Hour) |};
     shutdown := {| isShutdown := false; shutdownReason := "";
                    shutdownBy := ""; shutdownAt := time.zero |};
     env := {| wall := 0; ticks := [];
               users := [ {| models.ID := 1; models.Email := "admin@example.com";
                             models.Password := "hash"; models.Role := "admin" |} ];
               activations := []; dbFailing := false; trace := [] |} |}.

(** A motor request [{"duration": n}] of the user [uid]. *)
Definition motor_request (n : Z) (uid : N) : gin.Context :=
  {| gin.body := gin.Object {[ "duration" := JInt n ]};
     gin.keys := {[ "userID" := VUint uid ]} |}.

(** An admin call [{"reason": reason}] of the user [uid]. *)
Definition admin_request (reason : string) (uid : N) : gin.Context :=
  {| gin.body := gin.Object {[ "reason" := JString reason ]};
     gin.keys := {[ "user_id" := VFloat64 uid ]} |}.

(** [idle] after a force shutdown for maintenance. *)
Definition halted : World :=
  (handlers_shutdown.AdminForceShutdown (admin_request "maintenance" 1) idle).2.

(** The outcomes of a series of admission calls, with no iteration of the
    loop in between. *)
Fixpoint admissions (cs : list gin.Context) (w : World) : list Outcome * World :=
  match cs with
  | [] => ([], w)
  | c :: cs' =>
      let '(o, w1) := handlers_shutdown.EnqueueMotorRequest c w in
      let '(os, w2) := admissions cs' w1 in
      (o :: os, w2)
  end.

(** A world whose quota window ran out at time 10, read at time 100, with
    50 minutes used in the old window. *)
Definition stale : World :=
  set_quota {| totalMotorTime := time.mul 50 time.Minute; quotaResetTime := 10 |}
    (at_clock 100 [] idle).

(** [idle] with the database out of reach. *)
Definition offline : World :=
  set_env
    {| wall := 0; ticks := []; users := users (env idle); activations := [];
       dbFailing := true; trace := [] |} idle.

(** The first-in first-out bookkeeping of a run: the requests sent so far are
    those already [served], in that order, followed by those still in the
    channel, and the motor was driven once for each served request, in the
    same order. *)
Definition fifo (w : World) : Prop :=
  chan_wf (motorQueue w) ∧
  ∃ served : list MotorRequest,
    sends (trace (env w)) = served ++ pending (motorQueue w)
    ∧ motor_events (trace (env w)) = served ≫= actuation.

(** ** The rest of the shutdown revision of [mqtt.go] *)

Module handlers_more.


(** [SendCommand], the same in both revisions.  [input] is what
    [c.ShouldBindJSON(&input)] made of the body (the topic, and the payload
    by the text that goes on the wire); [publish_err] is the text of the
    error of [mqtt.Publish], if any. *)
Definition SendCommand (input : BindError + string * string)
    (publish_err : option string) : St Outcome :=
  match input with
  | inl err =>
      mret (Responded (gin.JSON http.StatusBadRequest
        {[ "error" := VError err ]}))
  | inr (input_Topic, input_Payload) =>
      mqtt_Publish input_Topic input_Payload;;
      match publish_err with
      | Some err =>
          mret (Responded (gin.JSON http.StatusInternalServerError
            {[ "error" := VString err ]}))
      | None =>
          mret (Responded (gin.JSON http.StatusOK
            {[ "message" := VString "command sent" ]}))
      end
  end.

End handlers_more.

(** Interleavings of the calls of the shutdown revision. *)
Inductive Op :=
| Admit (c : gin.Context)
| Loop
| ForceShutdown (c : gin.Context)
| Restart (c : gin.Context)
| Command (input : BindError + string * string) (publish_err : option string).

Definition apply_op (w : World) (o : Op) : World :=
  match o with
  | Admit c => (handlers_shutdown.EnqueueMotorRequest c w).2
  | Loop => (handlers_shutdown.processMotorQueue 1 w).2
  | ForceShutdown c => (handlers_shutdown.AdminForceShutdown c w).2
  | Restart c => (handlers_shutdown.AdminRestart c w).2
  | Command input publish_err =>
      (handlers_more.SendCommand input publish_err w).2
  end.

Definition history (ops : list Op) (w : World) : World := foldl apply_op w ops.

(** The clock stands still and the quota window has not run out. *)
Definition frozen (w : World) : Prop :=
  ticks (env w) = [] ∧ wall (env w) <= quotaResetTime (quota w).

(** ** [config] *)

Module config.

Record Config :=
  { DBPath : string; MQTTBroker : string; JWTSecret : string;
    AdminEmail : string; AdminPassword : string; CreateAdmin : bool }.

(** [os.Getenv(key)] over the process environment: "" when unset. *)
Definition Getenv (environ : gmap string string) (key : string) : string :=
  default "" (environ !! key).

Definition getEnv (environ : gmap string string) (key fallback : string)
    : string :=
  let value := Getenv environ key in
  if bool_decide (value ≠ "") then value else fallback.

Definition Load (environ : gmap string string) : Config :=
  {| DBPath := getEnv environ "DB_PATH" "data.db";
     MQTTBroker := getEnv environ "MQTT_BROKER" "tcp://localhost:1883";
     JWTSecret := getEnv environ "JWT_SECRET" "supersecret";
     AdminEmail := getEnv environ "ADMIN_EMAIL" "admin@example.com";
     AdminPassword := getEnv environ "ADMIN_PASSWORD" "admin123";
     CreateAdmin :=
       bool_decide (getEnv environ "CREATE_ADMIN" "true" = "true") |}.

End config.

(** ** [database] *)

Module database.

Definition set_users (us : list models.User) (e : Env) : Env :=
  {| wall := wall e; ticks := ticks e; users := us;
     activations := activations e; dbFailing := dbFailing e;
     trace := trace e |}.

(** [DB.Create(&user)] on the users table: the e-mail is unique, the key
    is the next one, and an empty role gets the column default. *)
Definition DB_Create (u : models.User) : St bool := λ w,
  let e := env w in
  if dbFailing e
     || bool_decide (models.Email u ∈ models.Email <$> users e)
  then (false, w)
  else
    let row :=
      {| models.ID := N.succ (foldr N.max 0%N (models.ID <$> users e));
         models.Email := models.Email u;
         models.Password := models.Password u;
         models.Role :=
           if bool_decide (models.Role u = "") then "user"
           else models.Role u |} in
    (true, set_env (set_users (users e ++ [row]) e) w).

(** [DB.Model(&models.User{}).Where("role = ?", "admin").Count(&count)];
    the caller drops the error, which leaves [count] at 0. *)
Definition DB_Count_admins : St N :=
  gets (λ w,
    if dbFailing (env w) then 0%N
    else N.of_nat (length (filter (λ u, models.Role u = "admin")
                             (users (env w))))).

(** [createDefaultAdmin]; it returns whether it returned an error.
    [hash] stands for [bcrypt.GenerateFromPassword], [None] being its
    error. *)
Definition createDefaultAdmin (environ : gmap string string)
    (hash : string → option string) : St bool :=
  let cfg := config.Load environ in
  if negb (config.CreateAdmin cfg) then mret false
  else
    count ← DB_Count_admins;
    if bool_decide (count = 0%N) then
      match hash (config.AdminPassword cfg) with
      | None => mret true
      | Some h =>
          ok ← DB_Create
            {| models.ID := 0; models.Email := config.AdminEmail cfg;
               models.Password := h; models.Role := "admin" |};
          mret (negb ok)
      end
    else mret false.

End database.

(** ** [user.go] *)

Module user.

(** The [email] and [password] of a [RegisterInput], both required. *)
Definition ShouldBindJSON_Register (c : gin.Context)
    : BindError + string * string :=
  match gin.body c with
  | gin.Malformed => inl SyntaxError
  | gin.Object fields =>
      match fields !! "email" with
      | None | Some JNull => inl (RequiredError "Email")
      | Some (JString email) =>
          if bool_decide (email = "") then inl (RequiredError "Email")
          else
            match fields !! "password" with
            | None | Some JNull => inl (RequiredError "Password")
            | Some (JString password) =>
                if bool_decide (password = "")
                then inl (RequiredError "Password")
                else inr (email, password)
            | Some _ => inl (UnmarshalTypeError "password")
            end
      | Some _ => inl (UnmarshalTypeError "email")
      end
  end.

(** [Register] of [user.go]; the error of the hashing is dropped, which
    leaves an empty hash.  [db_error] stands for the text of the database
    error. *)
Definition Register (hash : string → option string) (db_error : string)
    (c : gin.Context) : St Outcome :=
  match ShouldBindJSON_Register c with
  | inl err =>
      mret (Responded (gin.JSON http.StatusBadRequest
        {[ "error" := VError err ]}))
  | inr (input_Email, input_Password) =>
      ok ← database.DB_Create
        {| models.ID := 0; models.Email := input_Email;
           models.Password := default "" (hash input_Password);
           models.Role := "" |};
      if ok : bool then
        mret (Responded (gin.JSON http.StatusOK
          {[ "message" := VString "registration successful" ]}))
      else
        mret (Responded (gin.JSON http.StatusBadRequest
          {[ "error" := VString db_error ]}))
  end.

End user.

(** ** [middleware] and the handler chain of [gin] *)

Module middleware.

(** The handlers a route can chain: the three revisions of
    [AuthMiddleware] (storing the "user_id" claim, storing the "sub" claim
    as "userID", storing nothing), [AdminMiddleware], and an endpoint, which
    neither calls [c.Next()] nor aborts. *)
Inductive Handler :=
| UseAuth
| UseAuthSub
| UseAuthPlain
| UseAdmin
| Endpoint (f : gin.Context → St Outcome).

(** What the process gives every request: its environment, and
    [jwt.Parse] as a function from the token text and the secret to the
    claims of a valid token. *)
Record Server :=
  { environ : gmap string string;
    jwt_Parse : string → string → option (gmap string Value) }.

(** One request on its way through the chain: [index] is [c.index], and
    [written] are the bodies written so far, the first of which fixed the
    status line. *)
Record Call :=
  { Authorization : string; request_body : gin.Body;
    keys : gmap string Value; handlers : list Handler; index : Z;
    written : list Outcome; server : Server }.

Definition abortIndex : Z := 63.

Definition set_index (i : Z) (c : Call) : Call :=
  {| Authorization := Authorization c; request_body := request_body c;
     keys := keys c; handlers := handlers c; index := i;
     written := written c; server := server c |}.

(** [c.Set(key, value)]. *)
Definition Set_key (key : string) (value : Value) (c : Call) : Call :=
  {| Authorization := Authorization c; request_body := request_body c;
     keys := <[key := value]> (keys c); handlers := handlers c;
     index := index c; written := written c; server := server c |}.

Definition write (o : Outcome) (c : Call) : Call :=
  {| Authorization := Authorization c; request_body := request_body c;
     keys := keys c; handlers := handlers c; index := index c;
     written := written c ++ [o]; server := server c |}.

(** [c.IsAborted()] and [c.AbortWithStatusJSON(code, obj)]. *)
Definition IsAborted (c : Call) : bool := bool_decide (abortIndex <= index c).

Definition AbortWithStatusJSON (code : Z) (obj : gmap string Value)
    (c : Call) : Call :=
  write (Responded (gin.JSON code obj)) (set_index abortIndex c).

(** What an endpoint sees of the call. *)
Definition context (c : Call) : gin.Context :=
  {| gin.body := request_body c; gin.keys := keys c |}.

(** [strings.TrimPrefix(header, "Bearer ")] once the prefix is known to
    be there. *)
Definition TrimPrefix_Bearer (header : string) : string :=
  String.substring 7 (String.length header - 7) header.

(** The token check the three revisions share: [inl] is the aborted call,
    [inr] the claims of the valid token. *)
Definition parse_bearer (c : Call) : Call + gmap string Value :=
  let header := Authorization c in
  if bool_decide (header = "") || negb (String.prefix "Bearer " header) then
    inl (AbortWithStatusJSON http.StatusUnauthorized
           {[ "error" := VString "missing or invalid token" ]} c)
  else
    let tokenStr := TrimPrefix_Bearer header in
    let cfg := config.Load (environ (server c)) in
    match jwt_Parse (server c) tokenStr (config.JWTSecret cfg) with
    | None =>
        inl (AbortWithStatusJSON http.StatusUnauthorized
               {[ "error" := VString "invalid token" ]} c)
    | Some claims => inr claims
    end.

(** [AuthMiddleware] of [middleware/auth.go]; [Next] is [c.Next]. *)
Definition AuthMiddleware (Next : Call → St Call) (c : Call) : St Call :=
  match parse_bearer c with
  | inl aborted => mret aborted
  | inr claims =>
      match claims !! "user_id" with
      | Some userID => Next (Set_key "user_id" userID c)
      | None => Next c
      end
  end.

(** The revision reading the "sub" claim: [c.Next()] is called in the
    branch and once more at the end. *)
Definition AuthMiddleware_sub (Next : Call → St Call) (c : Call) : St Call :=
  match parse_bearer c with
  | inl aborted => mret aborted
  | inr claims =>
      match claims !! "sub" with
      | Some (VFloat64 userIDFloat) =>
          c' ← Next (Set_key "userID" (VUint userIDFloat) c);
          Next c'
      | _ =>
          mret (AbortWithStatusJSON http.StatusUnauthorized
                  {[ "error" := VString "invalid user ID in token" ]} c)
      end
  end.

(** The first revision: the token is checked and nothing is stored. *)
Definition AuthMiddleware_plain (Next : Call → St Call) (c : Call)
    : St Call :=
  match parse_bearer c with
  | inl aborted => mret aborted
  | inr _ => Next c
  end.

(** [AdminMiddleware]: it calls [AuthMiddleware()(c)], which itself calls
    [c.Next()], and only then looks at the role. *)
Definition AdminMiddleware (Next : Call → St Call) (c : Call) : St Call :=
  c ← AuthMiddleware Next c;
  if IsAborted c then mret c
  else
    match keys c !! "user_id" with
    | None =>
        mret (AbortWithStatusJSON http.StatusUnauthorized
                {[ "error" := VString "user ID not found in token" ]} c)
    | Some (VFloat64 userID) =>
        found ← handlers_shutdown.DB_First userID;
        match found with
        | None =>
            mret (AbortWithStatusJSON http.StatusUnauthorized
                    {[ "error" := VString "user not found" ]} c)
        | Some user =>
            if bool_decide (models.Role user ≠ "admin") then
              mret (AbortWithStatusJSON 403
                      {[ "error" := VString "admin access required" ]} c)
            else Next c
        end
    | Some _ =>
        mret (AbortWithStatusJSON http.StatusUnauthorized
                {[ "error" := VString "invalid user ID format" ]} c)
    end.

(** An endpoint writes its answer; one that parks or panics ends the call. *)
Definition run_endpoint (f : gin.Context → St Outcome) (c : Call) : St Call :=
  o ← f (context c);
  match o with
  | Responded _ => mret (write o c)
  | _ => mret (write o (set_index abortIndex c))
  end.

Definition dispatch (Next : Call → St Call) (h : Handler) : Call → St Call :=
  match h with
  | UseAuth => AuthMiddleware Next
  | UseAuthSub => AuthMiddleware_sub Next
  | UseAuthPlain => AuthMiddleware_plain Next
  | UseAdmin => AdminMiddleware Next
  | Endpoint f => run_endpoint f
  end.

(** The loop of [c.Next()],
    [for c.index < len(c.handlers) { c.handlers[c.index](c); c.index++ }],
    entered after [c.index++]; every handler started uses up one unit of
    [fuel]. *)
Fixpoint Next_loop (fuel : nat) (c : Call) : St Call :=
  match fuel with
  | O => mret c
  | S fuel' =>
      if bool_decide (0 <= index c) then
        match handlers c !! Z.to_nat (index c) with
        | Some h =>
            c' ← dispatch (λ c, Next_loop fuel' (set_index (index c + 1) c))
                   h c;
            Next_loop fuel' (set_index (index c' + 1) c')
        | None => mret c
        end
      else mret c
  end.

Definition Next (fuel : nat) (c : Call) : St Call :=
  Next_loop fuel (set_index (index c + 1) c).

(** A request enters its chain with [c.index = -1]. *)
Definition ServeHTTP (fuel : nat) (srv : Server) (chain : list Handler)
    (header : string) (body : gin.Body) : St Call :=
  Next fuel
    {| Authorization := header; request_body := body; keys := ∅;
       handlers := chain; index := -1; written := []; server := srv |}.

End middleware.

(** A server whose only valid token is "good", of the user [uid]. *)
Definition toy_server (uid : N) : middleware.Server :=
  {| middleware.environ := ∅;
     middleware.jwt_Parse := λ token secret,
       if bool_decide (token = "good") && bool_decide (secret = "supersecret")
       then Some {[ "user_id" := VFloat64 uid; "sub" := VFloat64 uid ]}
       else None |}.

(** [idle] with a second, ordinary user. *)
Definition staffed : World :=
  set_env
    (database.set_users
       (users (env idle)
        ++ [ {| models.ID := 2; models.Email := "user@example.com";
                models.Password := "hash"; models.Role := "user" |} ])
       (env idle)) idle.

(** * Properties *)

(** ** Arithmetic of [time.Duration] *)

Lemma int64_id z : time.is_int64 z → time.int64 z = z.
Proof.
  unfold time.is_int64, time.int64. intros Hz.
  rewrite Z.mod_small; lia.
Qed.

Lemma int64_is_int64 z : time.is_int64 (time.int64 z).
Proof.
  unfold time.is_int64, time.int64.
  pose proof (Z.mod_pos_bound (z + 2 ^ 63) (2 ^ 64)). lia.
Qed.

Lemma int64_idemp z : time.int64 (time.int64 z) = time.int64 z.
Proof. apply int64_id, int64_is_int64. Qed.

Lemma add_0_l d : time.is_int64 d → time.add 0 d = d.
Proof. intros Hd. unfold time.add. by rewrite Z.add_0_l, int64_id. Qed.

Lemma mul_is_int64 a b : time.is_int64 (time.mul a b).
Proof. apply int64_is_int64. Qed.

(** Where the sum stays in range, Go's [+] is the sum. *)
Lemma add_exact a b : time.is_int64 (a + b) → time.add a b = a + b.
Proof. apply int64_id. Qed.

Lemma motorQuota_value : motorQuota = 3600000000000.
Proof. reflexivity. Qed.

Lemma day_value : time.mul 24 time.Hour = 86400000000000.
Proof. reflexivity. Qed.

(** ** The monad's primitives *)

Ltac st_unfold := cbv [mbind mret St_bind St_ret gets modify].

Ltac st_prims :=
  cbv [time_Now time_Sleep mqtt_Publish chan_send chan_recv
       handlers.DB_Create handlers_shutdown.DB_First].

Lemma time_Now_frame w :
  motorQueue (time_Now w).2 = motorQueue w ∧
  quota (time_Now w).2 = quota w ∧
  shutdown (time_Now w).2 = shutdown w ∧
  users (env (time_Now w).2) = users (env w) ∧
  activations (env (time_Now w).2) = activations (env w) ∧
  dbFailing (env (time_Now w).2) = dbFailing (env w) ∧
  trace (env (time_Now w).2) = trace (env w).
Proof. done. Qed.

(** The window block, written out: two readings of the clock are taken
    when the window has expired, one otherwise. *)
Lemma quotaWindowReset_unfold w :
  quotaWindowReset w =
    if time.After (time_Now w).1 (quotaResetTime (quota w)) then
      ((), set_quota
             {| totalMotorTime := 0;
                quotaResetTime :=
                  time.Add (time_Now (time_Now w).2).1 (time.mul 24 time.Hour) |}
             (time_Now (time_Now w).2).2)
    else ((), (time_Now w).2).
Proof.
  unfold quotaWindowReset. st_unfold.
  destruct (time_Now w) as [t1 w1] eqn:E1.
  replace (quota w1) with (quota w) by (by inversion E1).
  cbn [fst snd].
  destruct (time.After t1 _); [|done].
  by destruct (time_Now w1).
Qed.

Lemma quotaWindowReset_frame w :
  motorQueue (quotaWindowReset w).2 = motorQueue w ∧
  shutdown (quotaWindowReset w).2 = shutdown w ∧
  users (env (quotaWindowReset w).2) = users (env w) ∧
  activations (env (quotaWindowReset w).2) = activations (env w) ∧
  dbFailing (env (quotaWindowReset w).2) = dbFailing (env w) ∧
  trace (env (quotaWindowReset w).2) = trace (env w).
Proof.
  rewrite quotaWindowReset_unfold. by destruct (time.After _ _).
Qed.

Lemma quotaWindowReset_expired w :
  time.After (time_Now w).1 (quotaResetTime (quota w)) = true →
  quota (quotaWindowReset w).2 =
    {| totalMotorTime := 0;
       quotaResetTime :=
         time.Add (time_Now (time_Now w).2).1 (time.mul 24 time.Hour) |}.
Proof. intros H. by rewrite quotaWindowReset_unfold, H. Qed.

Lemma quotaWindowReset_running w :
  time.After (time_Now w).1 (quotaResetTime (quota w)) = false →
  quota (quotaWindowReset w).2 = quota w.
Proof. intros H. by rewrite quotaWindowReset_unfold, H. Qed.

(** A receive takes the oldest pending request and touches nothing else. *)
Lemma chan_recv_spec w :
  match chan_recv w with
  | (None, w') => w' = w
  | (Some r, w') =>
      pending (motorQueue w) = r :: pending (motorQueue w') ∧
      quota w' = quota w ∧ shutdown w' = shutdown w ∧ env w' = env w
  end.
Proof.
  unfold chan_recv, pending.
  destruct (buf (motorQueue w)) as [|r rest]; [done|].
  destruct (sendq (motorQueue w)) as [|s parked]; cbn.
  - by rewrite !app_nil_r.
  - by rewrite <- app_assoc.
Qed.

(** ** The shutdown revision, step by step *)

Section shutdown_revision.
Import handlers_shutdown.

Lemma processMotorQueue_body_shutdown req w :
  isShutdown (shutdown w) = true → processMotorQueue_body req w = ((), w).
Proof. intros H. unfold processMotorQueue_body. st_unfold. by rewrite H. Qed.

(** The loop body outside a shutdown: the window block, then the charge
    if it fits. *)
Lemma processMotorQueue_body_normal req w :
  isShutdown (shutdown w) = false →
  processMotorQueue_body req w =
    let w1 := (quotaWindowReset w).2 in
    let total := time.add (totalMotorTime (quota w1)) (Duration req) in
    if bool_decide (total > motorQuota) then ((), w1)
    else ((), set_quota {| totalMotorTime := total;
                           quotaResetTime := quotaResetTime (quota w1) |} w1).
Proof.
  intros H. unfold processMotorQueue_body. st_unfold. rewrite H.
  destruct (quotaWindowReset w) as [[] w1]. cbn [snd].
  by destruct (bool_decide _).
Qed.

Lemma processMotorQueue_shutdown n : ∀ w,
  isShutdown (shutdown w) = true →
  let w' := (processMotorQueue n w).2 in
  env w' = env w ∧ quota w' = quota w ∧ shutdown w' = shutdown w ∧
  ∃ k, pending (motorQueue w') = drop k (pending (motorQueue w)).
Proof.
  induction n as [|n IH]; intros w H; cbn [processMotorQueue].
  - repeat split; by exists 0%nat.
  - st_unfold. pose proof (chan_recv_spec w) as Hrecv.
    destruct (chan_recv w) as [[req|] w1].
    + destruct Hrecv as (Hp & Hq & Hs & He).
      rewrite processMotorQueue_body_shutdown by congruence.
      destruct (IH w1 ltac:(congruence)) as (He' & Hq' & Hs' & k & Hk).
      cbn zeta in *. repeat split; try congruence.
      exists (S k). by rewrite Hp.
    + subst w1. repeat split; by exists 0%nat.
Qed.

(** The loop of this revision never publishes and never touches the
    channel beyond its receive: the motor-control statements are commented
    out. *)
Lemma processMotorQueue_body_frame req w :
  motorQueue (processMotorQueue_body req w).2 = motorQueue w ∧
  shutdown (processMotorQueue_body req w).2 = shutdown w ∧
  trace (env (processMotorQueue_body req w).2) = trace (env w).
Proof.
  destruct (isShutdown (shutdown w)) eqn:Hs.
  - by rewrite processMotorQueue_body_shutdown.
  - rewrite (processMotorQueue_body_normal req w Hs). cbn zeta.
    pose proof (quotaWindowReset_frame w) as (Hq & Hs' & _ & _ & _ & Ht).
    by destruct (bool_decide _).
Qed.

Lemma processMotorQueue_publishes_nothing n : ∀ w,
  trace (env (processMotorQueue n w).2) = trace (env w).
Proof.
  induction n as [|n IH]; intros w; [done|].
  cbn [processMotorQueue]. st_unfold.
  pose proof (chan_recv_spec w) as Hrecv.
  destruct (chan_recv w) as [[req|] w1]; [|by subst w1].
  destruct Hrecv as (_ & _ & _ & He).
  pose proof (processMotorQueue_body_frame req w1) as (_ & _ & Ht).
  destruct (processMotorQueue_body req w1) as [[] w2]. cbn [snd] in *.
  by rewrite IH, Ht, He.
Qed.

(** Admission outside a shutdown, once the body has bound. *)
Lemma EnqueueMotorRequest_normal c w n :
  isShutdown (shutdown w) = false →
  gin.ShouldBindJSON_Duration c = inr n →
  EnqueueMotorRequest c w =
    let w1 := (quotaWindowReset w).2 in
    let d := time.mul (time.of_int n) time.Second in
    if bool_decide (time.add (totalMotorTime (quota w1)) d > motorQuota) then
      (Responded (gin.JSON http.StatusTooManyRequests
         {[ "error" :=
              VString "Daily motor-on quota reached. Try again after 24 hours." ]}),
       w1)
    else
      let r := {| UserID := 0; RequestAt := (time_Now w1).1; Duration := d |} in
      let w3 := (chan_send r (time_Now w1).2).2 in
      if bool_decide (length (buf (motorQueue w)) < motorQueue_cap)%nat
      then (queued, w3) else (Parked, w3).
Proof.
  intros Hs Hb. unfold EnqueueMotorRequest. st_unfold. rewrite Hs, Hb.
  pose proof (quotaWindowReset_frame w) as (Hq & _).
  destruct (quotaWindowReset w) as [[] w1]. cbn [snd] in *.
  destruct (bool_decide (_ > _)); [done|].
  rewrite <- Hq. st_prims. cbn.
  by destruct (bool_decide (_ < _)%nat).
Qed.

(** With the buffer full, a request that passed the quota check parks. *)
Lemma full_buffer_parks c w n :
  isShutdown (shutdown w) = false →
  gin.ShouldBindJSON_Duration c = inr n →
  ¬ time.add (totalMotorTime (quota (quotaWindowReset w).2))
      (time.mul (time.of_int n) time.Second) > motorQuota →
  length (buf (motorQueue w)) = motorQueue_cap →
  (EnqueueMotorRequest c w).1 = Parked.
Proof.
  intros Hs Hb Hfit Hfull.
  rewrite (EnqueueMotorRequest_normal c w n Hs Hb). cbn zeta.
  rewrite bool_decide_eq_false_2 by done.
  rewrite bool_decide_eq_false_2 by lia. done.
Qed.

(** A body that does not bind is answered 400 with the world untouched. *)
Lemma EnqueueMotorRequest_unbound c w err :
  isShutdown (shutdown w) = false →
  gin.ShouldBindJSON_Duration c = inl err →
  EnqueueMotorRequest c w =
    (Responded (gin.JSON http.StatusBadRequest {[ "error" := VError err ]}), w).
Proof.
  intros Hs Hb. unfold EnqueueMotorRequest. st_unfold. by rewrite Hs, Hb.
Qed.

(** An absent, null or zero [duration] does not bind. *)
Lemma ShouldBindJSON_Duration_missing c fields :
  gin.body c = gin.Object fields →
  fields !! "duration" = None ∨ fields !! "duration" = Some JNull
    ∨ fields !! "duration" = Some (JInt 0) →
  gin.ShouldBindJSON_Duration c = inl (RequiredError "Duration").
Proof.
  intros Hb H. unfold gin.ShouldBindJSON_Duration. rewrite Hb.
  by destruct H as [-> | [-> | ->]].
Qed.

Lemma chan_send_frame r w :
  quota (chan_send r w).2 = quota w ∧
  shutdown (chan_send r w).2 = shutdown w ∧
  trace (env (chan_send r w).2) = trace (env w) ++ [Send r] ∧
  activations (env (chan_send r w).2) = activations (env w).
Proof. unfold chan_send. by destruct (bool_decide _). Qed.

(** The send of an admission goes to the back of the channel. *)
Lemma chan_send_spec r w :
  chan_wf (motorQueue w) →
  chan_wf (motorQueue (chan_send r w).2) ∧
  pending (motorQueue (chan_send r w).2) = pending (motorQueue w) ++ [r] ∧
  quota (chan_send r w).2 = quota w ∧
  shutdown (chan_send r w).2 = shutdown w ∧
  trace (env (chan_send r w).2) = trace (env w) ++ [Send r] ∧
  activations (env (chan_send r w).2) = activations (env w).
Proof.
  unfold chan_send, pending, chan_wf. cbn. intros [Hle Hwf].
  case_bool_decide as Hroom; cbn; rewrite ?length_app; cbn.
  - destruct Hwf as [-> | Hfull]; [|lia].
    rewrite !app_nil_r. repeat split; auto; lia.
  - rewrite <- app_assoc. repeat split; auto; lia.
Qed.

Lemma chan_recv_wf w :
  chan_wf (motorQueue w) → chan_wf (motorQueue (chan_recv w).2).
Proof.
  unfold chan_recv, chan_wf. intros [Hle Hwf].
  destruct (buf (motorQueue w)) as [|r rest] eqn:Hb;
    [cbn; rewrite Hb; cbn; split; [lia | done] |].
  destruct (sendq (motorQueue w)) as [|s parked]; cbn in *.
  - split; [lia | by left].
  - destruct Hwf as [? | Hfull]; [done|].
    rewrite length_app. cbn. split; [lia | right; lia].
Qed.

End shutdown_revision.

(** ** Claims about the shutdown revision *)

Section claims_shutdown.
Import handlers_shutdown.

(** The answer of an admission outside a shutdown depends on the quota
    variables, the room in the buffer and the clock only. *)
Lemma EnqueueMotorRequest_outcome_ext c w w' :
  isShutdown (shutdown w) = false →
  isShutdown (shutdown w') = false →
  quota w' = quota w →
  length (buf (motorQueue w')) = length (buf (motorQueue w)) →
  wall (env w') = wall (env w) →
  ticks (env w') = ticks (env w) →
  (EnqueueMotorRequest c w').1 = (EnqueueMotorRequest c w).1.
Proof.
  intros Hs Hs' Hq Hl Hw Ht.
  destruct (gin.ShouldBindJSON_Duration c) as [err|n] eqn:Hb.
  - by rewrite !(EnqueueMotorRequest_unbound _ _ err).
  - rewrite !(EnqueueMotorRequest_normal _ _ n) by done.
    assert (quota (quotaWindowReset w').2 = quota (quotaWindowReset w).2) as Hq1.
    { rewrite !quotaWindowReset_unfold. unfold time_Now. cbn.
      rewrite Hq, Hw, Ht. by destruct (time.After _ _). }
    cbn zeta. rewrite Hq1, Hl.
    by repeat destruct (bool_decide _).
Qed.

(** More room in the buffer keeps a queued admission queued. *)
Lemma EnqueueMotorRequest_queued_mono c w w' :
  isShutdown (shutdown w') = false →
  quota w' = quota w →
  (length (buf (motorQueue w')) ≤ length (buf (motorQueue w)))%nat →
  wall (env w') = wall (env w) →
  ticks (env w') = ticks (env w) →
  (EnqueueMotorRequest c w).1 = queued →
  (EnqueueMotorRequest c w').1 = queued.
Proof.
  intros Hs' Hq Hl Hw Ht.
  destruct (isShutdown (shutdown w)) eqn:Hs.
  { unfold EnqueueMotorRequest at 1. st_unfold. rewrite Hs.
    unfold queued. intros [=]. }
  destruct (gin.ShouldBindJSON_Duration c) as [err|n] eqn:Hb.
  { rewrite !(EnqueueMotorRequest_unbound _ _ err) by done. done. }
  rewrite !(EnqueueMotorRequest_normal _ _ n) by done.
  assert (quota (quotaWindowReset w').2 = quota (quotaWindowReset w).2) as Hq1.
  { rewrite !quotaWindowReset_unfold. unfold time_Now. cbn.
    rewrite Hq, Hw, Ht. by destruct (time.After _ _). }
  cbn zeta. rewrite Hq1.
  case_bool_decide; [done|].
  case_bool_decide as Hroom; [|intros [=]].
  intros _. by rewrite bool_decide_eq_true_2 by lia.
Qed.

(** The loop only ever shortens the buffer. *)
Lemma processMotorQueue_buf_length n : ∀ w,
  (length (buf (motorQueue (processMotorQueue n w).2))
   ≤ length (buf (motorQueue w)))%nat.
Proof.
  induction n as [|n IH]; intros w; [done|].
  cbn [processMotorQueue]. st_unfold.
  pose proof (chan_recv_spec w) as Hspec.
  destruct (chan_recv w) as [[req|] w1] eqn:Hrecv; [|by subst w1].
  clear Hspec.
  pose proof (processMotorQueue_body_frame req w1) as (Hq & _).
  destruct (processMotorQueue_body req w1) as [[] w2]. cbn [snd] in *.
  etrans; [apply IH|]. rewrite Hq.
  revert Hrecv. unfold chan_recv.
  destruct (buf (motorQueue w)) as [|r rest]; [done|].
  destruct (sendq (motorQueue w)); intros [= _ <-]; cbn;
    rewrite ?length_app; cbn; lia.
Qed.

(** A force shutdown that answered 200 set the flag and the three
    metadata variables, and published "off". *)
Lemma AdminForceShutdown_done c w r :
  (AdminForceShutdown c w).1 = Responded r → gin.code r = http.StatusOK →
  ∃ reason user,
    AdminForceShutdown c w =
      (Responded (gin.JSON http.StatusOK
         {[ "message" := VString "Motor system shut down successfully";
            "reason" := VString reason;
            "shutdown_by" := VString (models.Email user);
            "shutdown_at" := VTime (time_Now w).1 ]}),
       set_env (log (Publish "motor/control" "off") (env (time_Now w).2))
         (set_shutdown
            {| isShutdown := true; shutdownReason := reason;
               shutdownBy := models.Email user;
               shutdownAt := (time_Now w).1 |} (time_Now w).2)).
Proof.
  unfold AdminForceShutdown. st_unfold. st_prims. st_unfold.
  destruct (gin.ShouldBindJSON_Reason c) as [err|reason]; [by intros [= <-]|].
  destruct (gin.keys c !! "user_id") as [[]|]; try by intros [= <-].
  destruct (if dbFailing (env w) then None else _) as [user|];
    [|by intros [= <-]].
  intros _ _. by exists reason, user.
Qed.

Lemma AdminRestart_unfold c w :
  AdminRestart c w =
    (Responded (gin.JSON http.StatusOK
       {[ "message" := VString "Motor system restarted successfully";
          "restart_at" := VTime (time_Now w).1 ]}),
     set_shutdown
       {| isShutdown := false; shutdownReason := ""; shutdownBy := "";
          shutdownAt := time.zero |} (time_Now w).2).
Proof. done. Qed.

(** C1. While the shutdown flag is set, every call to EnqueueMotorRequest
    is answered 503 with the shutdown reason, initiator and timestamp and
    leaves the whole state as it was (no quota variable touched, nothing
    enqueued); the loop of processMotorQueue drops every request it
    dequeues, whenever it was queued, without publishing anything and
    without touching the quota, and the flag stays set through any number
    of iterations. *)
Theorem shutdown_rejects_and_drops
    (c : gin.Context) (req : MotorRequest) (n : nat) (w : World) :
  isShutdown (shutdown w) = true →
  EnqueueMotorRequest c w =
    (Responded (gin.JSON http.StatusServiceUnavailable
       {[ "error" := VString "Motor system is currently shut down";
          "reason" := VString (shutdownReason (shutdown w));
          "shutdown_by" := VString (shutdownBy (shutdown w));
          "shutdown_at" := VTime (shutdownAt (shutdown w)) ]}), w)
  ∧ processMotorQueue_body req w = ((), w)
  ∧ trace (env (processMotorQueue n w).2) = trace (env w)
  ∧ quota (processMotorQueue n w).2 = quota w
  ∧ isShutdown (shutdown (processMotorQueue n w).2) = true
  ∧ ∃ k, pending (motorQueue (processMotorQueue n w).2)
         = drop k (pending (motorQueue w)).
Proof.
  intros H. split; [|split].
  - unfold EnqueueMotorRequest. st_unfold. by rewrite H.
  - by apply processMotorQueue_body_shutdown.
  - destruct (processMotorQueue_shutdown n w H) as (He & Hq & Hs & Hk).
    repeat split; [by rewrite He | done | by rewrite Hs | done].
Qed.

Lemma shutdown_rejects_and_drops_witness :
  isShutdown (shutdown halted) = true ∧
  (EnqueueMotorRequest (motor_request 600 7) halted).2 = halted.
Proof.
  assert (isShutdown (shutdown halted) = true) as H by reflexivity.
  split; [exact H|].
  destruct (shutdown_rejects_and_drops (motor_request 600 7)
              {| UserID := 0; RequestAt := 0; Duration := time.Second |}
              1 halted H) as [-> _].
  reflexivity.
Defined.

(** C2, as the code has it. Outside a shutdown and with room in the
    buffer, a request whose duration d fits the quota (after the window
    block) is answered "Request queued" and put on the queue exactly once;
    the admission leaves the accumulated counter as the window block left
    it, and the counter grows by d when the loop of processMotorQueue takes
    up a request of that duration outside a shutdown and within the quota. *)
Theorem admission_checks_without_charging
    (c : gin.Context) (n : Z) (w : World) :
  isShutdown (shutdown w) = false →
  gin.ShouldBindJSON_Duration c = inr n →
  (length (buf (motorQueue w)) < motorQueue_cap)%nat →
  let d := time.mul (time.of_int n) time.Second in
  let w1 := (quotaWindowReset w).2 in
  time.add (totalMotorTime (quota w1)) d <= motorQuota →
  (EnqueueMotorRequest c w).1 = queued
  ∧ buf (motorQueue (EnqueueMotorRequest c w).2)
    = buf (motorQueue w)
        ++ [ {| UserID := 0; RequestAt := (time_Now w1).1; Duration := d |} ]
  ∧ sendq (motorQueue (EnqueueMotorRequest c w).2) = sendq (motorQueue w)
  ∧ quota (EnqueueMotorRequest c w).2 = quota w1
  ∧ ∀ (req : MotorRequest) (v : World),
      Duration req = d →
      isShutdown (shutdown v) = false →
      time.add (totalMotorTime (quota (quotaWindowReset v).2)) d <= motorQuota →
      totalMotorTime (quota (processMotorQueue_body req v).2)
      = time.add (totalMotorTime (quota (quotaWindowReset v).2)) d.
Proof.
  intros Hs Hb Hroom d w1 Hfit.
  rewrite (EnqueueMotorRequest_normal c w n Hs Hb). cbn zeta.
  fold d w1.
  rewrite bool_decide_eq_false_2 by lia.
  rewrite bool_decide_eq_true_2 by done.
  pose proof (quotaWindowReset_frame w) as (Hq & _). fold w1 in Hq.
  cbn [fst snd]. unfold chan_send, time_Now. cbn.
  rewrite Hq, bool_decide_eq_true_2 by done. cbn.
  repeat split; [done..|].
  intros req v Hd Hv Hfit'.
  rewrite (processMotorQueue_body_normal req v Hv). cbn zeta.
  rewrite Hd, bool_decide_eq_false_2 by lia. done.
Qed.

Lemma admission_checks_without_charging_witness :
  (EnqueueMotorRequest (motor_request 60 7) idle).1 = queued.
Proof.
  refine (proj1 (admission_checks_without_charging
                   (motor_request 60 7) 60 idle _ _ _ _)).
  - reflexivity.
  - reflexivity.
  - cbn. unfold motorQueue_cap. lia.
  - vm_compute. discriminate.
Defined.

(** C2, as stated, fails: in the idle system a 60 second request fits
    the quota and is queued, yet the accumulated counter is still 0 when
    the admission returns, not 60 seconds. *)
Lemma admission_charge_counterexample :
  time.add (totalMotorTime (quota (quotaWindowReset idle).2))
           (time.mul (time.of_int 60) time.Second) <= motorQuota
  ∧ (EnqueueMotorRequest (motor_request 60 7) idle).1 = queued
  ∧ totalMotorTime (quota (EnqueueMotorRequest (motor_request 60 7) idle).2)
    ≠ time.add (totalMotorTime (quota (quotaWindowReset idle).2))
               (time.mul (time.of_int 60) time.Second).
Proof.
  split; [|split].
  - vm_compute. discriminate.
  - vm_compute. reflexivity.
  - vm_compute. discriminate.
Qed.



(** C4. At admission and in the loop alike, when the clock is past the
    reset timestamp the quota check first zeroes the accumulated usage and
    sets the reset timestamp to the next clock reading plus 24 hours, and
    decides on the zeroed counter: the request is accepted exactly when its
    own duration fits the quota, whatever was used in the old window. *)
Theorem window_reset_precedes_decision
    (c : gin.Context) (n : Z) (req : MotorRequest) (w : World) :
  isShutdown (shutdown w) = false →
  time.After (time_Now w).1 (quotaResetTime (quota w)) = true →
  let fresh :=
    {| totalMotorTime := 0;
       quotaResetTime :=
         time.Add (time_Now (time_Now w).2).1 (time.mul 24 time.Hour) |} in
  (gin.ShouldBindJSON_Duration c = inr n →
   quota (EnqueueMotorRequest c w).2 = fresh
   ∧ ((length (buf (motorQueue w)) < motorQueue_cap)%nat →
      ((EnqueueMotorRequest c w).1 = queued
       ↔ time.mul (time.of_int n) time.Second <= motorQuota)))
  ∧ (time.is_int64 (Duration req) →
     quota (processMotorQueue_body req w).2 =
       if bool_decide (Duration req <= motorQuota)
       then {| totalMotorTime := Duration req;
               quotaResetTime := quotaResetTime fresh |}
       else fresh).
Proof.
  intros Hs Hexp fresh.
  pose proof (quotaWindowReset_expired w Hexp) as Hq. fold fresh in Hq.
  split.
  - intros Hb.
    rewrite (EnqueueMotorRequest_normal c w n Hs Hb). cbn zeta.
    rewrite Hq. cbn [totalMotorTime].
    rewrite add_0_l by apply mul_is_int64.
    case_bool_decide as Hover.
    + cbn [fst snd]. split; [done|]. intros _. split; [|lia].
      unfold queued. intros [=].
    + split.
      * case_bool_decide; cbn [snd];
          by rewrite (proj1 (chan_send_frame _ _)).
      * intros Hroom. rewrite bool_decide_eq_true_2 by done. cbn [fst].
        split; [lia | done].
  - intros Hreq.
    rewrite (processMotorQueue_body_normal req w Hs). cbn zeta.
    rewrite Hq. cbn [totalMotorTime quotaResetTime].
    rewrite add_0_l by done.
    repeat case_bool_decide; try lia; cbn [snd]; [done|].
    unfold set_quota. cbn. done.
Qed.

Lemma window_reset_precedes_decision_witness :
  time.add (totalMotorTime (quota stale))
           (time.mul (time.of_int 1200) time.Second) > motorQuota
  ∧ (EnqueueMotorRequest (motor_request 1200 7) stale).1 = queued.
Proof.
  split; [vm_compute; reflexivity|].
  assert (isShutdown (shutdown stale) = false) as Hs by reflexivity.
  assert (time.After (time_Now stale).1 (quotaResetTime (quota stale)) = true)
    as He by reflexivity.
  destruct (window_reset_precedes_decision (motor_request 1200 7) 1200
              {| UserID := 0; RequestAt := 0; Duration := time.Minute |}
              stale Hs He) as [Hadm _].
  destruct Hadm as [_ Hiff]; [reflexivity|].
  apply Hiff.
  - cbn. unfold motorQueue_cap. lia.
  - vm_compute. discriminate.
Defined.

(** C6. After a force shutdown that went through, and however many
    requests the loop dropped in the meantime, AdminRestart answers 200,
    clears the flag and erases the reason, the initiator and the timestamp;
    the quota variables are those from before the shutdown, the queue holds
    what was not dropped (all of it when the loop did not run), and an
    admission that was queued before the shutdown is queued again
    afterwards at the same clock. *)
Theorem restart_undoes_shutdown
    (c_down c_up : gin.Context) (r : gin.Response) (n : nat) (w : World) :
  (AdminForceShutdown c_down w).1 = Responded r →
  gin.code r = http.StatusOK →
  let w1 := (processMotorQueue n (AdminForceShutdown c_down w).2).2 in
  let w2 := (AdminRestart c_up w1).2 in
  isShutdown (shutdown w1) = true
  ∧ (AdminRestart c_up w1).1 =
      Responded (gin.JSON http.StatusOK
        {[ "message" := VString "Motor system restarted successfully";
           "restart_at" := VTime (time_Now w1).1 ]})
  ∧ shutdown w2 =
      {| isShutdown := false; shutdownReason := ""; shutdownBy := "";
         shutdownAt := time.zero |}
  ∧ quota w2 = quota w
  ∧ (∃ k, pending (motorQueue w2) = drop k (pending (motorQueue w)))
  ∧ (n = 0%nat → motorQueue w2 = motorQueue w)
  ∧ ∀ (c : gin.Context) (t : time.Time) (ts : list N),
      (EnqueueMotorRequest c (at_clock t ts w)).1 = queued →
      (EnqueueMotorRequest c (at_clock t ts w2)).1 = queued.
Proof.
  intros Hout Hcode w1 w2.
  destruct (AdminForceShutdown_done c_down w r Hout Hcode)
    as (reason & user & Hdown).
  assert (isShutdown (shutdown (AdminForceShutdown c_down w).2) = true
          ∧ quota (AdminForceShutdown c_down w).2 = quota w
          ∧ motorQueue (AdminForceShutdown c_down w).2 = motorQueue w)
    as (Hflag & Hquota & Hqueue) by (by rewrite Hdown).
  destruct (processMotorQueue_shutdown n _ Hflag) as (_ & Hq & Hs & k & Hk).
  pose proof (processMotorQueue_buf_length n (AdminForceShutdown c_down w).2)
    as Hlen.
  fold w1 in Hq, Hs, Hk, Hlen. rewrite Hqueue in Hk, Hlen.
  unfold w2. rewrite AdminRestart_unfold. cbn [fst snd].
  split; [by rewrite Hs|]. split; [done|]. split; [done|].
  split; [cbn; congruence|]. split; [by exists k|]. split.
  - intros ->. cbn. unfold w1. cbn. done.
  - intros c t ts. apply EnqueueMotorRequest_queued_mono; cbn;
      [done | congruence | done | done | done].
Qed.

Lemma restart_undoes_shutdown_witness :
  (EnqueueMotorRequest (motor_request 600 7) (at_clock 5 [] idle)).1 = queued
  ∧ (EnqueueMotorRequest (motor_request 600 7)
       (at_clock 5 []
          (AdminRestart (admin_request "" 1) halted).2)).1 = queued.
Proof.
  assert ((EnqueueMotorRequest (motor_request 600 7)
             (at_clock 5 [] idle)).1 = queued) as Hq
    by (vm_compute; reflexivity).
  split; [exact Hq|].
  refine (proj2 (proj2 (proj2 (proj2 (proj2 (proj2
    (restart_undoes_shutdown (admin_request "maintenance" 1)
       (admin_request "" 1)
       (gin.JSON http.StatusOK
          {[ "message" := VString "Motor system shut down successfully";
             "reason" := VString "maintenance";
             "shutdown_by" := VString "admin@example.com";
             "shutdown_at" := VTime 0 ]})
       0 idle _ _)))))) (motor_request 600 7) 5 [] Hq).
  - vm_compute. reflexivity.
  - reflexivity.
Defined.

(** C7, on the code. A hundred and one one-second requests are admitted
    from the idle system with no iteration of the loop in between: the
    first hundred are answered "Request queued", the last call is left
    parked on the send, with no answer, its request waiting behind the
    full buffer. *)
Theorem hundred_and_first_admission_parks :
  (admissions (replicate 101 (motor_request 1 7)) idle).1
  = replicate 100 queued ++ [Parked]
  ∧ length (buf (motorQueue
       (admissions (replicate 101 (motor_request 1 7)) idle).2)) = 100%nat
  ∧ Duration <$> sendq (motorQueue
       (admissions (replicate 101 (motor_request 1 7)) idle).2)
    = [time.Second].
Proof. vm_compute. done. Qed.

(** C8, on the code. A request [{"duration": -5}] binds, passes the quota
    check and is queued with a duration of minus five seconds; the loop
    then takes five seconds off the accumulated counter.  Both revisions
    queue it. *)
Theorem negative_duration_is_admitted :
  (EnqueueMotorRequest (motor_request (-5) 7) idle).1 = queued
  ∧ Duration <$> buf (motorQueue
      (EnqueueMotorRequest (motor_request (-5) 7) idle).2)
    = [-5 * time.Second]
  ∧ totalMotorTime (quota
      (processMotorQueue 1
         (EnqueueMotorRequest (motor_request (-5) 7) idle).2).2)
    = -5 * time.Second
  ∧ (handlers.EnqueueMotorRequest (motor_request (-5) 7) idle).1 = queued.
Proof. vm_compute. done. Qed.

(** The other half of C8 holds: an absent, null or zero duration is
    answered 400 with the world untouched. *)
Lemma missing_duration_is_rejected c fields w :
  isShutdown (shutdown w) = false →
  gin.body c = gin.Object fields →
  fields !! "duration" = None ∨ fields !! "duration" = Some JNull
    ∨ fields !! "duration" = Some (JInt 0) →
  EnqueueMotorRequest c w =
    (Responded (gin.JSON http.StatusBadRequest
       {[ "error" := VError (RequiredError "Duration") ]}), w).
Proof.
  intros Hs Hb Hf. apply EnqueueMotorRequest_unbound; [done|].
  by eapply ShouldBindJSON_Duration_missing.
Qed.

End claims_shutdown.

(** ** The revision with the activation log, step by step *)

Section audit_revision.
Import handlers.

(** What one admission does: it logs and sends, or fails to log, or is
    turned away before the log. *)
Lemma EnqueueMotorRequest_effect c w :
  let out := (EnqueueMotorRequest c w).1 in
  let w' := (EnqueueMotorRequest c w).2 in
  let w1 := (quotaWindowReset w).2 in
  shutdown w' = shutdown w ∧
  ((∃ n uid,
      gin.ShouldBindJSON_Duration c = inr n ∧
      gin.keys c !! "userID" = Some (VUint uid) ∧
      dbFailing (env w) = false ∧
      let d := time.mul (time.of_int n) time.Minute in
      let row :=
        {| models.ActivationID := N.of_nat (S (length (activations (env w))));
           models.UserID := uid; models.RequestAt := (time_Now w1).1;
           models.Duration := d |} in
      let req :=
        {| UserID := 0; RequestAt := (time_Now (time_Now w1).2).1;
           Duration := d |} in
      trace (env w') = trace (env w) ++ [Create row true; Send req] ∧
      activations (env w') = activations (env w) ++ [row] ∧
      ((out = queued ∧ buf (motorQueue w') = buf (motorQueue w) ++ [req]
        ∧ sendq (motorQueue w') = sendq (motorQueue w)
        ∧ (length (buf (motorQueue w)) < motorQueue_cap)%nat)
       ∨ (out = Parked ∧ buf (motorQueue w') = buf (motorQueue w)
          ∧ sendq (motorQueue w') = sendq (motorQueue w) ++ [req]
          ∧ ¬ (length (buf (motorQueue w)) < motorQueue_cap)%nat)))
   ∨ (∃ a, dbFailing (env w) = true ∧
        trace (env w') = trace (env w) ++ [Create a false] ∧
        activations (env w') = activations (env w) ∧
        motorQueue w' = motorQueue w ∧
        out = Responded (gin.JSON http.StatusInternalServerError
                {[ "error" := VString "failed to log request" ]}))
   ∨ (trace (env w') = trace (env w) ∧
      activations (env w') = activations (env w) ∧
      motorQueue w' = motorQueue w ∧
      out ≠ queued ∧ out ≠ Parked)).
Proof.
  unfold EnqueueMotorRequest. st_unfold.
  destruct (gin.ShouldBindJSON_Duration c) as [err|n] eqn:Hb.
  { cbn. split; [done|]. right; right. by repeat split. }
  pose proof (quotaWindowReset_frame w) as (Hq & Hs & Hu & Ha & Hd & Ht).
  destruct (quotaWindowReset w) as [[] w1]. cbn [snd] in *.
  case_bool_decide as Hover.
  { cbn. split; [done|]. right; right. by repeat split. }
  destruct (gin.keys c !! "userID") as [[]|] eqn:Hk;
    try (cbn; split; [done|]; right; right; by repeat split).
  st_prims. cbn. rewrite Hd.
  destruct (dbFailing (env w)); cbn; rewrite ?Ha, ?Hq, ?Ht.
  { split; [done|]. right; left. eexists. by repeat split. }
  case_bool_decide as Hroom; cbn; rewrite ?Ha, ?Hq, ?Ht.
  all: split; [done|]; left; eexists n, _; rewrite <- app_assoc; cbn;
    (do 5 (split; [done|])).
  - left. by repeat split.
  - right. by repeat split.
Qed.

(** What one iteration does with the request it took. *)
Lemma processMotorQueue_body_effect req w :
  let w' := (processMotorQueue_body req w).2 in
  motorQueue w' = motorQueue w ∧
  shutdown w' = shutdown w ∧
  activations (env w') = activations (env w) ∧
  trace (env w') = trace (env w) ++ actuation req ∧
  totalMotorTime (quota w')
  = time.add (totalMotorTime (quota (quotaWindowReset w).2)) (Duration req).
Proof.
  unfold processMotorQueue_body. st_unfold.
  pose proof (quotaWindowReset_frame w) as (Hq & Hs & Hu & Ha & Hd & Ht).
  destruct (quotaWindowReset w) as [[] w1]. cbn [snd] in *.
  st_prims. st_unfold. cbn. rewrite Hq, Hs, Ha, Ht, <- !app_assoc. done.
Qed.

Lemma motor_events_app tr new :
  motor_events (tr ++ new) = motor_events tr ++ motor_events new.
Proof. apply filter_app. Qed.

Lemma sends_app tr new : sends (tr ++ new) = sends tr ++ sends new.
Proof. apply omap_app. Qed.

Lemma one_at_a_time_motor tr : ∀ b,
  one_at_a_time b tr = one_at_a_time b (motor_events tr).
Proof.
  induction tr as [|e tr IH]; intros b; [done|].
  destruct e; cbn; rewrite ?IH; done.
Qed.

Lemma one_at_a_time_actuations l :
  one_at_a_time false (l ≫= actuation) = true.
Proof. induction l as [|r l IH]; [done|]. cbn. done. Qed.

Lemma fifo_step a w : fifo w → fifo (step w a).
Proof.
  intros (Hwf & served & Hsends & Hmotor). destruct a as [c|]; cbn [step].
  - destruct (EnqueueMotorRequest_effect c w)
      as (_ & [(n & uid & _ & _ & _ & Ht & _ & Hch)
              | [(a & _ & Ht & _ & Hq & _) | (Ht & _ & Hq & _)]]).
    + cbn zeta in *. unfold fifo, chan_wf, pending in *.
      rewrite Ht, sends_app, motor_events_app, Hsends, Hmotor. cbn.
      destruct Hwf as [Hle Hfull].
      destruct Hch as [(_ & -> & -> & Hroom) | (_ & -> & -> & Hroom)].
      * destruct Hfull as [Hnil | Hfull]; [|lia]. rewrite Hnil, !app_nil_r.
        rewrite length_app. cbn. split; [split; [lia | by left]|].
        exists served. by rewrite <- ?app_assoc, ?app_nil_r.
      * split; [split; [lia | right; lia]|].
        exists served. by rewrite <- ?app_assoc, ?app_nil_r.
    + unfold fifo. rewrite Ht, Hq, sends_app, motor_events_app. cbn.
      rewrite ?app_nil_r. eauto.
    + unfold fifo. rewrite Ht, Hq. eauto.
  - cbn [processMotorQueue]. st_unfold.
    pose proof (chan_recv_spec w) as Hrecv.
    pose proof (chan_recv_wf w Hwf) as Hwf'.
    destruct (chan_recv w) as [[req|] w1]; cbn [snd] in *.
    + destruct Hrecv as (Hp & _ & _ & He).
      destruct (processMotorQueue_body_effect req w1) as (Hq & _ & _ & Ht & _).
      destruct (processMotorQueue_body req w1) as [[] w2]. cbn [snd] in *.
      unfold fifo. rewrite Hq, Ht, He, sends_app, motor_events_app.
      split; [done|]. exists (served ++ [req]).
      rewrite Hsends, Hmotor, Hp, bind_app. cbn.
      by rewrite <- ?app_assoc, ?app_nil_r.
    + subst w1. unfold fifo. eauto.
Qed.

Lemma fifo_run acts : ∀ w, fifo w → fifo (run acts w).
Proof.
  induction acts as [|a acts IH]; intros w H; [done|].
  apply IH. by apply fifo_step.
Qed.

Lemma fifo_init w :
  trace (env w) = [] → pending (motorQueue w) = [] → fifo w.
Proof.
  intros Ht Hp. unfold fifo, chan_wf. rewrite Ht, Hp.
  apply app_eq_nil in Hp as [-> ->]. cbn. unfold motorQueue_cap.
  split; [split; [lia | by left]|]. by exists [].
Qed.

End audit_revision.

(** ** Claims about the queue and the activation log *)

Section claims_queue.

(** C5. In any interleaving of admissions and loop iterations that
    starts with an empty channel, the requests are served in the order in
    which they were sent to the queue; every served request makes the loop
    publish "on", hold for the request's duration and publish "off"; no
    "on" is published while the motor is running; so for two served
    requests A then B, the three events of A come before those of B. *)
Theorem served_in_admission_order (acts : list Action) (w : World) :
  trace (env w) = [] →
  pending (motorQueue w) = [] →
  ∃ served : list MotorRequest,
    sends (trace (env (run acts w)))
    = served ++ pending (motorQueue (run acts w))
    ∧ motor_events (trace (env (run acts w))) = served ≫= actuation
    ∧ one_at_a_time false (trace (env (run acts w))) = true
    ∧ ∀ (A B : MotorRequest) (before between after : list MotorRequest),
        served = before ++ A :: between ++ B :: after →
        ∃ t1 t2 t3 : list Event,
          motor_events (trace (env (run acts w)))
          = t1 ++ actuation A ++ t2 ++ actuation B ++ t3.
Proof.
  intros Ht Hp.
  destruct (fifo_run acts w (fifo_init w Ht Hp)) as (_ & served & Hs & Hm).
  exists served. split; [done|]. split; [done|]. split.
  - by rewrite one_at_a_time_motor, Hm, one_at_a_time_actuations.
  - intros A B before between after ->.
    exists (before ≫= actuation), (between ≫= actuation),
           (after ≫= actuation).
    by rewrite Hm, bind_app, bind_cons, bind_app, bind_cons.
Qed.

Lemma served_in_admission_order_witness :
  motor_events (trace (env (run
    [Request (motor_request 10 7); Request (motor_request 20 8);
     Iterate; Iterate] idle)))
  = actuation {| UserID := 0; RequestAt := 0;
                 Duration := time.mul 10 time.Minute |}
    ++ actuation {| UserID := 0; RequestAt := 0;
                    Duration := time.mul 20 time.Minute |}
  ∧ one_at_a_time false (trace (env (run
      [Request (motor_request 10 7); Request (motor_request 20 8);
       Iterate; Iterate] idle))) = true.
Proof.
  split; [vm_compute; reflexivity|].
  destruct (served_in_admission_order
              [Request (motor_request 10 7); Request (motor_request 20 8);
               Iterate; Iterate] idle eq_refl eq_refl)
    as (served & _ & _ & H & _).
  exact H.
Defined.

(** C9. An admission that is answered "Request queued" has written one
    DeviceActivation row, with the caller's user ID, the time of the
    request and the duration, and only then sent the request to the
    queue; when the database fails, nothing is sent to the queue and no row
    is kept, and where the write was tried the caller is answered 500
    "failed to log request". *)
Theorem audit_precedes_enqueue (c : gin.Context) (w : World) :
  ((handlers.EnqueueMotorRequest c w).1 = queued →
   ∃ (uid : N) (row : models.DeviceActivation) (req : MotorRequest),
     gin.keys c !! "userID" = Some (VUint uid)
     ∧ models.UserID row = uid
     ∧ models.RequestAt row = (time_Now (quotaWindowReset w).2).1
     ∧ models.Duration row = Duration req
     ∧ activations (env (handlers.EnqueueMotorRequest c w).2)
       = activations (env w) ++ [row]
     ∧ trace (env (handlers.EnqueueMotorRequest c w).2)
       = trace (env w) ++ [Create row true; Send req]
     ∧ buf (motorQueue (handlers.EnqueueMotorRequest c w).2)
       = buf (motorQueue w) ++ [req])
  ∧ (dbFailing (env w) = true →
     motorQueue (handlers.EnqueueMotorRequest c w).2 = motorQueue w
     ∧ sends (trace (env (handlers.EnqueueMotorRequest c w).2))
       = sends (trace (env w))
     ∧ activations (env (handlers.EnqueueMotorRequest c w).2)
       = activations (env w)
     ∧ (handlers.EnqueueMotorRequest c w).1 ≠ queued
     ∧ (handlers.EnqueueMotorRequest c w).1 ≠ Parked
     ∧ ((∃ a : models.DeviceActivation,
           trace (env (handlers.EnqueueMotorRequest c w).2)
           = trace (env w) ++ [Create a false]
           ∧ (handlers.EnqueueMotorRequest c w).1
             = Responded (gin.JSON http.StatusInternalServerError
                 {[ "error" := VString "failed to log request" ]}))
        ∨ trace (env (handlers.EnqueueMotorRequest c w).2) = trace (env w))).
Proof.
  destruct (EnqueueMotorRequest_effect c w)
    as (_ & [(n & uid & Hb & Hk & Hd & Ht & Ha & Hch)
            | [(a & Hd & Ht & Ha & Hq & Hout) | (Ht & Ha & Hq & Hnq & Hnp)]]);
    cbn zeta in *.
  - split; [|intros Hd'; congruence].
    intros Hout. destruct Hch as [(_ & Hbuf & _) | (Hp & _)];
      [|by rewrite Hp in Hout].
    eexists uid, _, _.
    repeat split; try first [exact Hk | exact Ha | exact Ht | exact Hbuf];
      reflexivity.
  - split; [rewrite Hout; unfold queued; intros [=]|].
    intros _. rewrite Hq, Ha, Ht, sends_app, Hout. cbn.
    rewrite app_nil_r. repeat split; try done.
    left. by exists a.
  - split; [done|]. intros _. rewrite Hq, Ha, Ht.
    repeat split; try done. by right.
Qed.

Lemma audit_precedes_enqueue_witness :
  (∃ row req,
     trace (env (handlers.EnqueueMotorRequest (motor_request 5 7) idle).2)
     = [Create row true; Send req] ∧ models.UserID row = 7%N)
  ∧ motorQueue (handlers.EnqueueMotorRequest (motor_request 5 7) offline).2
    = motorQueue offline.
Proof.
  split.
  - destruct (proj1 (audit_precedes_enqueue (motor_request 5 7) idle))
      as (uid & row & req & Hk & Hu & _ & _ & _ & Ht & _).
    + vm_compute. reflexivity.
    + exists row, req. split; [exact Ht|].
      rewrite Hu. vm_compute in Hk. congruence.
  - apply (proj2 (audit_precedes_enqueue (motor_request 5 7) offline)).
    reflexivity.
Defined.

(** C10. Whoever the authenticated user is, the request that an
    admission puts on the queue has UserID 0, while the DeviceActivation
    row written for the same request has the caller's user ID; the
    shutdown revision, which writes no row, queues UserID 0 as well. *)
Theorem queued_request_has_user_zero
    (c : gin.Context) (uid : N) (w : World) :
  gin.keys c !! "userID" = Some (VUint uid) →
  ((handlers.EnqueueMotorRequest c w).1 = queued →
   ∃ (row : models.DeviceActivation) (req : MotorRequest),
     activations (env (handlers.EnqueueMotorRequest c w).2)
     = activations (env w) ++ [row]
     ∧ models.UserID row = uid
     ∧ buf (motorQueue (handlers.EnqueueMotorRequest c w).2)
       = buf (motorQueue w) ++ [req]
     ∧ UserID req = 0%N)
  ∧ ((handlers_shutdown.EnqueueMotorRequest c w).1 = queued →
     ∃ req : MotorRequest,
       buf (motorQueue (handlers_shutdown.EnqueueMotorRequest c w).2)
       = buf (motorQueue w) ++ [req]
       ∧ UserID req = 0%N).
Proof.
  intros Hk. split.
  - intros Hout.
    destruct (EnqueueMotorRequest_effect c w)
      as (_ & [(n & uid' & Hb & Hk' & Hd & Ht & Ha & Hch)
              | [(a & _ & _ & _ & _ & Hout') | (_ & _ & _ & Hnq & _)]]);
      cbn zeta in *; [| by rewrite Hout' in Hout | done].
    destruct Hch as [(_ & Hbuf & _) | (Hp & _)];
      [|by rewrite Hp in Hout].
    assert (uid' = uid) as -> by congruence.
    eexists _, _.
    repeat split; try first [exact Ha | exact Hbuf]; reflexivity.
  - destruct (isShutdown (shutdown w)) eqn:Hs.
    { unfold handlers_shutdown.EnqueueMotorRequest. st_unfold. rewrite Hs.
      unfold queued. intros [=]. }
    destruct (gin.ShouldBindJSON_Duration c) as [err|n] eqn:Hb.
    { rewrite (EnqueueMotorRequest_unbound c w err Hs Hb).
      unfold queued. intros [=]. }
    rewrite (EnqueueMotorRequest_normal c w n Hs Hb). cbn zeta.
    case_bool_decide; [unfold queued; intros [=]|].
    case_bool_decide as Hroom; [|intros [=]].
    intros _. cbn [snd]. unfold chan_send. cbn.
    rewrite (proj1 (quotaWindowReset_frame w)).
    rewrite bool_decide_eq_true_2 by done. cbn.
    by eexists.
Qed.

Lemma queued_request_has_user_zero_witness :
  ∃ row req,
    activations (env (handlers.EnqueueMotorRequest (motor_request 5 7) idle).2)
    = [row]
    ∧ models.UserID row = 7%N
    ∧ buf (motorQueue (handlers.EnqueueMotorRequest (motor_request 5 7) idle).2)
      = [req]
    ∧ UserID req = 0%N.
Proof.
  destruct (queued_request_has_user_zero (motor_request 5 7) 7 idle)
    as [H _]; [vm_compute; reflexivity|].
  apply H. vm_compute. reflexivity.
Defined.

End claims_queue.

(** ** Runs of the shutdown revision *)

Section runs_shutdown.
Import handlers_shutdown.

Lemma quotaWindowReset_total w :
  totalMotorTime (quota (quotaWindowReset w).2) = totalMotorTime (quota w)
  ∨ totalMotorTime (quota (quotaWindowReset w).2) = 0.
Proof.
  rewrite quotaWindowReset_unfold. destruct (time.After _ _); [by right | by left].
Qed.

(** What one admission of this revision leaves behind. *)
Lemma EnqueueMotorRequest_trail c w :
  shutdown (EnqueueMotorRequest c w).2 = shutdown w
  ∧ (totalMotorTime (quota (EnqueueMotorRequest c w).2) = totalMotorTime (quota w)
     ∨ totalMotorTime (quota (EnqueueMotorRequest c w).2) = 0)
  ∧ ((motorQueue (EnqueueMotorRequest c w).2 = motorQueue w
      ∧ trace (env (EnqueueMotorRequest c w).2) = trace (env w))
     ∨ ∃ r, EnqueueMotorRequest c w
            = ((EnqueueMotorRequest c w).1,
               (chan_send r (time_Now (quotaWindowReset w).2).2).2)).
Proof.
  destruct (isShutdown (shutdown w)) eqn:Hs.
  { unfold EnqueueMotorRequest. st_unfold. rewrite Hs. cbn. auto. }
  destruct (gin.ShouldBindJSON_Duration c) as [err|n] eqn:Hb.
  { rewrite (EnqueueMotorRequest_unbound c w err Hs Hb). cbn. auto. }
  rewrite (EnqueueMotorRequest_normal c w n Hs Hb). cbn zeta.
  pose proof (quotaWindowReset_frame w) as (Hq & Hs' & _ & _ & _ & Ht).
  pose proof (quotaWindowReset_total w) as Htot.
  case_bool_decide; cbn [fst snd]; [by auto|].
  match goal with |- context [chan_send ?r ?v] =>
    pose proof (chan_send_frame r v) as (Hcq & Hcs & _) end.
  case_bool_decide; cbn [fst snd]; rewrite Hcq, Hcs; cbn;
    (split; [done|]); (split; [done|]); right; by eexists.
Qed.

Lemma processMotorQueue_body_total req w :
  totalMotorTime (quota w) <= motorQuota →
  totalMotorTime (quota (processMotorQueue_body req w).2) <= motorQuota.
Proof.
  intros Hle. destruct (isShutdown (shutdown w)) eqn:Hs.
  { by rewrite processMotorQueue_body_shutdown. }
  rewrite (processMotorQueue_body_normal req w Hs). cbn zeta.
  pose proof (quotaWindowReset_total w) as [Ht | Ht];
    case_bool_decide; cbn; rewrite ?Ht in *; rewrite ?motorQuota_value in *;
    lia.
Qed.

(** A force shutdown touches the shutdown variables and the broker only. *)
Lemma AdminForceShutdown_frame c w :
  quota (AdminForceShutdown c w).2 = quota w
  ∧ motorQueue (AdminForceShutdown c w).2 = motorQueue w
  ∧ (trace (env (AdminForceShutdown c w).2) = trace (env w)
     ∨ trace (env (AdminForceShutdown c w).2)
       = trace (env w) ++ [Publish "motor/control" "off"]).
Proof.
  unfold AdminForceShutdown. st_unfold. st_prims. st_unfold.
  destruct (gin.ShouldBindJSON_Reason c) as [err|reason]; [by auto|].
  destruct (gin.keys c !! "user_id") as [[]|]; try by auto.
  destruct (if dbFailing (env w) then None else _) as [user|]; cbn; auto.
Qed.

Lemma SendCommand_frame input publish_err w :
  quota (handlers_more.SendCommand input publish_err w).2 = quota w
  ∧ motorQueue (handlers_more.SendCommand input publish_err w).2 = motorQueue w
  ∧ shutdown (handlers_more.SendCommand input publish_err w).2 = shutdown w.
Proof.
  unfold handlers_more.SendCommand. st_unfold. st_prims. st_unfold.
  destruct input as [err|[topic payload]]; [done|].
  by destruct publish_err.
Qed.

Lemma processMotorQueue_one_total w :
  totalMotorTime (quota w) <= motorQuota →
  totalMotorTime (quota (processMotorQueue 1 w).2) <= motorQuota.
Proof.
  intros Hle. cbn [processMotorQueue]. st_unfold.
  pose proof (chan_recv_spec w) as Hrecv.
  destruct (chan_recv w) as [[req|] w1]; [|by subst w1].
  destruct Hrecv as (_ & Hq & _).
  pose proof (processMotorQueue_body_total req w1) as Hb.
  destruct (processMotorQueue_body req w1) as [[] w2]. cbn [snd] in *.
  apply Hb. by rewrite Hq.
Qed.

(** X1. Whatever calls are made to the shutdown revision, in whatever
    order (admissions, loop iterations, force shutdowns, restarts, raw
    commands), the accumulated motor time stays within the quota once it is
    within it. *)
Theorem quota_is_never_exceeded (ops : list Op) (w : World) :
  totalMotorTime (quota w) <= motorQuota →
  totalMotorTime (quota (history ops w)) <= motorQuota.
Proof.
  revert w. induction ops as [|o ops IH]; intros w Hle; [done|].
  apply IH. destruct o as [c| |c|c|input publish_err]; cbn [apply_op].
  - destruct (EnqueueMotorRequest_trail c w) as (_ & [-> | ->] & _);
      [done | by rewrite motorQuota_value].
  - by apply processMotorQueue_one_total.
  - by rewrite (proj1 (AdminForceShutdown_frame c w)).
  - by rewrite AdminRestart_unfold.
  - by rewrite (proj1 (SendCommand_frame input publish_err w)).
Qed.

Lemma quota_is_never_exceeded_witness :
  totalMotorTime (quota (history
    [Admit (motor_request 3000 7); Loop; Admit (motor_request 3000 8); Loop]
    idle)) <= motorQuota.
Proof. apply quota_is_never_exceeded. vm_compute. discriminate. Defined.

Lemma EnqueueMotorRequest_wf c w :
  chan_wf (motorQueue w) → chan_wf (motorQueue (EnqueueMotorRequest c w).2).
Proof.
  intros Hwf.
  destruct (EnqueueMotorRequest_trail c w) as (_ & _ & [[-> _] | [r ->]]);
    [done|]. cbn [snd].
  apply chan_send_spec. cbn.
  by rewrite (proj1 (quotaWindowReset_frame w)).
Qed.

Lemma processMotorQueue_one_wf w :
  chan_wf (motorQueue w) → chan_wf (motorQueue (processMotorQueue 1 w).2).
Proof.
  intros Hwf. cbn [processMotorQueue]. st_unfold.
  pose proof (chan_recv_wf w Hwf) as Hwf'.
  destruct (chan_recv w) as [[req|] w1]; [|done]. cbn [snd] in *.
  pose proof (processMotorQueue_body_frame req w1) as (Hq & _).
  destruct (processMotorQueue_body req w1) as [[] w2]. cbn [snd] in *.
  by rewrite Hq.
Qed.

(** X2. Over any such series of calls the buffer of the queue never
    holds more than its 100 slots, and a sender is parked only while the
    buffer is full. *)
Theorem buffer_never_overflows (ops : list Op) (w : World) :
  chan_wf (motorQueue w) →
  (length (buf (motorQueue (history ops w))) ≤ motorQueue_cap)%nat
  ∧ (sendq (motorQueue (history ops w)) ≠ [] →
     length (buf (motorQueue (history ops w))) = motorQueue_cap).
Proof.
  intros Hwf. enough (chan_wf (motorQueue (history ops w))) as [Hle Hfull].
  { split; [done|]. intros Hne. by destruct Hfull. }
  revert w Hwf. induction ops as [|o ops IH]; intros w Hwf; [done|].
  apply IH. destruct o as [c| |c|c|input publish_err]; cbn [apply_op].
  - by apply EnqueueMotorRequest_wf.
  - by apply processMotorQueue_one_wf.
  - by rewrite (proj1 (proj2 (AdminForceShutdown_frame c w))).
  - by rewrite AdminRestart_unfold.
  - by rewrite (proj1 (proj2 (SendCommand_frame input publish_err w))).
Qed.

Lemma buffer_never_overflows_witness :
  (length (buf (motorQueue (history
     (replicate 101 (Admit (motor_request 1 7))) idle))) ≤ motorQueue_cap)%nat.
Proof.
  apply (buffer_never_overflows (replicate 101 (Admit (motor_request 1 7)))).
  split; [cbn; unfold motorQueue_cap; lia | by left].
Defined.


(** X3. In the shutdown revision no admission, loop iteration, force
    shutdown or restart ever publishes anything but "off" on
    "motor/control": the queue of this revision never turns the motor on. *)
Theorem queue_never_turns_the_motor_on (ops : list Op) (w : World) :
  Forall (λ o, ∀ input publish_err, o ≠ Command input publish_err) ops →
  ∃ k : nat,
    motor_events (trace (env (history ops w)))
    = motor_events (trace (env w)) ++ replicate k (Publish "motor/control" "off").
Proof.
  revert w. induction ops as [|o ops IH]; intros w Hops.
  { exists 0%nat. cbn. by rewrite app_nil_r. }
  apply Forall_cons in Hops as [Ho Hops].
  destruct (IH (apply_op w o) Hops) as [k Hk]. cbn [history foldl] in *.
  fold (history ops (apply_op w o)) in Hk |- *. rewrite Hk. clear Hk IH.
  assert (motor_events (trace (env (apply_op w o))) = motor_events (trace (env w))
          ∨ motor_events (trace (env (apply_op w o)))
            = motor_events (trace (env w)) ++ [Publish "motor/control" "off"])
    as [-> | ->].
  { destruct o as [c| |c|c|input publish_err]; cbn [apply_op].
    - left. destruct (EnqueueMotorRequest_trail c w) as (_ & _ & [[_ ->] | [r ->]]);
        [done|]. cbn [snd].
      rewrite (proj1 (proj2 (proj2 (chan_send_frame _ _)))). cbn.
      rewrite (proj2 (proj2 (proj2 (proj2 (proj2 (quotaWindowReset_frame w)))))).
      rewrite motor_events_app. cbn. by rewrite app_nil_r.
    - left. by rewrite processMotorQueue_publishes_nothing.
    - destruct (AdminForceShutdown_frame c w) as (_ & _ & [-> | ->]);
        [by left | right]. by rewrite motor_events_app.
    - left. by rewrite AdminRestart_unfold.
    - by destruct (Ho input publish_err). }
  - by exists k.
  - exists (S k). by rewrite <- app_assoc.
Qed.

Lemma queue_never_turns_the_motor_on_witness :
  ∃ k : nat,
    motor_events (trace (env (history
      [Admit (motor_request 60 7); Loop;
       ForceShutdown (admin_request "maintenance" 1);
       Restart (admin_request "" 1)] idle)))
    = motor_events (trace (env idle))
      ++ replicate k (Publish "motor/control" "off").
Proof.
  apply queue_never_turns_the_motor_on.
  repeat constructor; intros ? ?; discriminate.
Defined.

(** With the clock standing still inside the window, the window block
    changes nothing but reads. *)
Lemma time_Now_frozen w :
  frozen w →
  (time_Now w).1 = wall (env w) ∧ frozen (time_Now w).2.
Proof.
  intros [Ht Hw]. unfold time_Now, frozen. cbn. rewrite Ht. cbn.
  split; [lia | split; [done | lia]].
Qed.

Lemma quotaWindowReset_frozen w :
  frozen w →
  quota (quotaWindowReset w).2 = quota w
  ∧ frozen (quotaWindowReset w).2
  ∧ wall (env (quotaWindowReset w).2) = wall (env w).
Proof.
  intros Hf. destruct (time_Now_frozen w Hf) as [Hnow Hf'].
  rewrite quotaWindowReset_unfold, Hnow.
  destruct Hf as [Ht Hw].
  unfold time.After. rewrite bool_decide_eq_false_2 by lia.
  cbn [snd]. split; [done|]. split; [done|].
  unfold time_Now. cbn. rewrite Ht. cbn. lia.
Qed.

(** An admission that fits, with the clock standing still. *)
Lemma EnqueueMotorRequest_frozen c w n :
  frozen w →
  isShutdown (shutdown w) = false →
  gin.ShouldBindJSON_Duration c = inr n →
  time.add (totalMotorTime (quota w)) (time.mul (time.of_int n) time.Second)
    <= motorQuota →
  (length (buf (motorQueue w)) < motorQueue_cap)%nat →
  let r := {| UserID := 0; RequestAt := wall (env w);
              Duration := time.mul (time.of_int n) time.Second |} in
  (EnqueueMotorRequest c w).1 = queued
  ∧ frozen (EnqueueMotorRequest c w).2
  ∧ quota (EnqueueMotorRequest c w).2 = quota w
  ∧ shutdown (EnqueueMotorRequest c w).2 = shutdown w
  ∧ buf (motorQueue (EnqueueMotorRequest c w).2) = buf (motorQueue w) ++ [r]
  ∧ sendq (motorQueue (EnqueueMotorRequest c w).2) = sendq (motorQueue w)
  ∧ trace (env (EnqueueMotorRequest c w).2) = trace (env w) ++ [Send r]
  ∧ wall (env (EnqueueMotorRequest c w).2) = wall (env w).
Proof.
  intros Hf Hs Hb Hfit Hroom r.
  destruct (quotaWindowReset_frozen w Hf) as (Hq & Hf1 & Hw1).
  pose proof (quotaWindowReset_frame w) as (Hmq & Hsh & _ & _ & _ & Htr).
  destruct (time_Now_frozen _ Hf1) as [Hnow Hf2].
  rewrite (EnqueueMotorRequest_normal c w n Hs Hb). cbn zeta.
  rewrite Hq, bool_decide_eq_false_2 by lia.
  rewrite bool_decide_eq_true_2 by done. cbn [fst snd].
  rewrite Hnow, Hw1. fold r.
  unfold chan_send. cbn. rewrite Hmq, bool_decide_eq_true_2 by done. cbn.
  rewrite Hq, Hsh, Htr.
  destruct Hf2 as [Ht2 Hw2]. cbn in Ht2, Hw2. rewrite Hq in Hw2.
  destruct Hf1 as [Ht1 _].
  rewrite Ht1 in Hw2. cbn in Hw2.
  repeat split; try done; cbn; rewrite ?Hq, ?Ht1; try done; cbn; lia.
Qed.

(** One iteration on a request at the head of the buffer, with the clock
    standing still and nobody parked. *)
Lemma processMotorQueue_frozen req rest w :
  frozen w →
  isShutdown (shutdown w) = false →
  buf (motorQueue w) = req :: rest →
  sendq (motorQueue w) = [] →
  let w' := (processMotorQueue 1 w).2 in
  let sum := time.add (totalMotorTime (quota w)) (Duration req) in
  frozen w'
  ∧ shutdown w' = shutdown w
  ∧ buf (motorQueue w') = rest
  ∧ sendq (motorQueue w') = []
  ∧ trace (env w') = trace (env w)
  ∧ quotaResetTime (quota w') = quotaResetTime (quota w)
  ∧ totalMotorTime (quota w')
    = if bool_decide (sum > motorQuota) then totalMotorTime (quota w) else sum.
Proof.
  intros Hf Hs Hbuf Hsq. cbn [processMotorQueue]. st_unfold.
  unfold chan_recv. rewrite Hbuf, Hsq.
  set (w1 := set_motorQueue _ w).
  assert (frozen w1) as Hf1 by done.
  rewrite (processMotorQueue_body_normal req w1 Hs). cbn zeta.
  destruct (quotaWindowReset_frozen w1 Hf1) as (Hq & Hf2 & Hw).
  pose proof (quotaWindowReset_frame w1) as (Hmq & Hsh & _ & _ & _ & Htr).
  rewrite Hq. change (quota w1) with (quota w).
  destruct Hf2 as [Ht2 Hw2]. rewrite Hq in Hw2.
  case_bool_decide; cbn [snd]; cbn;
    rewrite ?Hmq, ?Hsh, ?Htr, ?Hq; repeat split; try done;
    cbn; rewrite ?Hq; done.
Qed.


(** X4. Admission reserves nothing.  With the clock standing still
    inside the window and an empty queue, two requests that each fit the
    quota but do not fit together are both answered "Request queued"; the
    loop then charges the first and drops the second, which leaves no trace
    but its send. *)
Theorem over_admission_is_dropped_silently
    (c1 c2 : gin.Context) (n1 n2 : Z) (w : World) :
  frozen w →
  isShutdown (shutdown w) = false →
  buf (motorQueue w) = [] →
  sendq (motorQueue w) = [] →
  gin.ShouldBindJSON_Duration c1 = inr n1 →
  gin.ShouldBindJSON_Duration c2 = inr n2 →
  let d1 := time.mul (time.of_int n1) time.Second in
  let d2 := time.mul (time.of_int n2) time.Second in
  let total := totalMotorTime (quota w) in
  time.add total d1 <= motorQuota →
  time.add total d2 <= motorQuota →
  time.add (time.add total d1) d2 > motorQuota →
  let r1 := {| UserID := 0; RequestAt := wall (env w); Duration := d1 |} in
  let r2 := {| UserID := 0; RequestAt := wall (env w); Duration := d2 |} in
  let w' := history [Admit c1; Admit c2; Loop; Loop] w in
  (EnqueueMotorRequest c1 w).1 = queued
  ∧ (EnqueueMotorRequest c2 (history [Admit c1] w)).1 = queued
  ∧ totalMotorTime (quota w') = time.add total d1
  ∧ pending (motorQueue w') = []
  ∧ trace (env w') = trace (env w) ++ [Send r1; Send r2].
Proof.
  intros Hf Hs Hbuf Hsq Hb1 Hb2 d1 d2 total Hfit1 Hfit2 Hover r1 r2 w'.
  unfold w', history. cbn [foldl apply_op].
  destruct (EnqueueMotorRequest_frozen c1 w n1 Hf Hs Hb1 Hfit1)
    as (Ho1 & Hf1 & Hq1 & Hs1 & Hbuf1 & Hsq1 & Ht1 & Hw1).
  { rewrite Hbuf. cbn. unfold motorQueue_cap. lia. }
  set (w1 := (EnqueueMotorRequest c1 w).2) in *.
  destruct (EnqueueMotorRequest_frozen c2 w1 n2 Hf1)
    as (Ho2 & Hf2 & Hq2 & Hs2 & Hbuf2 & Hsq2 & Ht2 & _);
    [congruence | done | by rewrite Hq1 | | ].
  { rewrite Hbuf1, Hbuf. cbn. unfold motorQueue_cap. lia. }
  set (w2 := (EnqueueMotorRequest c2 w1).2) in *.
  rewrite Hbuf1, Hbuf in Hbuf2. cbn in Hbuf2. rewrite Hsq1, Hsq in Hsq2.
  destruct (processMotorQueue_frozen _ _ w2 Hf2 ltac:(congruence) Hbuf2 Hsq2)
    as (Hf3 & Hs3 & Hbuf3 & Hsq3 & Ht3 & _ & Htot3).
  set (w3 := (processMotorQueue 1 w2).2) in *.
  destruct (processMotorQueue_frozen _ _ w3 Hf3 ltac:(congruence) Hbuf3 Hsq3)
    as (Hf4 & Hs4 & Hbuf4 & Hsq4 & Ht4 & _ & Htot4).
  cbn [Duration] in Htot3, Htot4. rewrite Hq2, Hq1 in Htot3. fold total in Htot3.
  rewrite bool_decide_eq_false_2 in Htot3 by (fold d1; lia).
  rewrite Htot3 in Htot4. fold d1 d2 in Htot4.
  rewrite bool_decide_eq_true_2 in Htot4 by done.
  split; [done|]. split; [done|]. split; [done|]. split.
  - unfold pending. by rewrite Hbuf4, Hsq4.
  - rewrite Ht4, Ht3, Ht2, Ht1, Hw1, <- app_assoc. done.
Qed.

Lemma over_admission_is_dropped_silently_witness :
  totalMotorTime (quota (history
    [Admit (motor_request 2400 7); Admit (motor_request 1800 8); Loop; Loop]
    idle)) = time.mul 40 time.Minute.
Proof.
  refine (proj1 (proj2 (proj2
    (over_admission_is_dropped_silently (motor_request 2400 7)
       (motor_request 1800 8) 2400 1800 idle _ _ _ _ _ _ _ _ _)))).
  - split; [reflexivity | vm_compute; discriminate].
  - reflexivity.
  - reflexivity.
  - reflexivity.
  - reflexivity.
  - reflexivity.
  - vm_compute. discriminate.
  - vm_compute. discriminate.
  - vm_compute. reflexivity.
Defined.


(** The two ways a force shutdown can end. *)
Lemma AdminForceShutdown_cases (c : gin.Context) (w : World) :
  (∃ (reason : string) (uid : N) (user : models.User),
     gin.ShouldBindJSON_Reason c = inr reason
     ∧ gin.keys c !! "user_id" = Some (VFloat64 uid)
     ∧ find (λ u, bool_decide (models.ID u = uid)) (users (env w)) = Some user
     ∧ (AdminForceShutdown c w).1 =
         Responded (gin.JSON http.StatusOK
           {[ "message" := VString "Motor system shut down successfully";
              "reason" := VString reason;
              "shutdown_by" := VString (models.Email user);
              "shutdown_at" := VTime (time_Now w).1 ]})
     ∧ shutdown (AdminForceShutdown c w).2 =
         {| isShutdown := true; shutdownReason := reason;
            shutdownBy := models.Email user; shutdownAt := (time_Now w).1 |}
     ∧ trace (env (AdminForceShutdown c w).2)
       = trace (env w) ++ [Publish "motor/control" "off"])
  ∨ ((AdminForceShutdown c w).2 = w
     ∧ ∃ r : gin.Response,
         (AdminForceShutdown c w).1 = Responded r
         ∧ (gin.code r = http.StatusBadRequest
            ∨ gin.code r = http.StatusUnauthorized)).
Proof.
  unfold AdminForceShutdown. st_unfold. st_prims. st_unfold.
  destruct (gin.ShouldBindJSON_Reason c) as [err|reason];
    [right; split; [done|]; eexists; split; [done|]; by left|].
  destruct (gin.keys c !! "user_id") as [[]|];
    try (right; split; [done|]; eexists; split; [done|]; by right).
  destruct (dbFailing (env w));
    [right; split; [done|]; eexists; split; [done|]; by right|].
  destruct (find _ _) as [user|] eqn:Hfind;
    [|right; split; [done|]; eexists; split; [done|]; by right].
  left. by exists reason, n, user.
Qed.

(** X5. AdminForceShutdown never touches the quota or the queue, and it
    either goes through, whatever the state before (a second shutdown
    overwrites reason, initiator and time), answering 200 and publishing one
    "off", or it answers 400 or 401 and leaves the world exactly as it was. *)
Theorem force_shutdown_is_all_or_nothing (c : gin.Context) (w : World) :
  quota (AdminForceShutdown c w).2 = quota w
  ∧ motorQueue (AdminForceShutdown c w).2 = motorQueue w
  ∧ ((∃ (reason : string) (user : models.User),
        gin.ShouldBindJSON_Reason c = inr reason
        ∧ user ∈ users (env w)
        ∧ (AdminForceShutdown c w).1 =
            Responded (gin.JSON http.StatusOK
              {[ "message" := VString "Motor system shut down successfully";
                 "reason" := VString reason;
                 "shutdown_by" := VString (models.Email user);
                 "shutdown_at" := VTime (time_Now w).1 ]})
        ∧ shutdown (AdminForceShutdown c w).2 =
            {| isShutdown := true; shutdownReason := reason;
               shutdownBy := models.Email user;
               shutdownAt := (time_Now w).1 |}
        ∧ trace (env (AdminForceShutdown c w).2)
          = trace (env w) ++ [Publish "motor/control" "off"])
     ∨ ((AdminForceShutdown c w).2 = w
        ∧ ∃ r : gin.Response,
            (AdminForceShutdown c w).1 = Responded r
            ∧ (gin.code r = http.StatusBadRequest
               ∨ gin.code r = http.StatusUnauthorized))).
Proof.
  destruct (AdminForceShutdown_frame c w) as (Hq & Hmq & _).
  split; [done|]. split; [done|].
  destruct (AdminForceShutdown_cases c w)
    as [(reason & uid & user & Hb & _ & Hfind & Hout & Hsh & Ht) | Hfail];
    [left | by right].
  exists reason, user. repeat split; try done.
  apply find_some in Hfind as [Hin _]. by apply list_elem_of_In.
Qed.

(** X6. A force shutdown does not empty the queue: a request that is
    still at the head of the queue when the system is restarted is taken up
    by the next loop iteration and charged or dropped exactly as if there
    had been no shutdown (clock standing still inside the window). *)
Theorem queued_request_survives_shutdown
    (c_down c_up : gin.Context) (r : gin.Response)
    (req : MotorRequest) (rest : list MotorRequest) (w : World) :
  frozen w →
  isShutdown (shutdown w) = false →
  buf (motorQueue w) = req :: rest →
  sendq (motorQueue w) = [] →
  (AdminForceShutdown c_down w).1 = Responded r →
  gin.code r = http.StatusOK →
  let w' := history [ForceShutdown c_down; Restart c_up; Loop] w in
  isShutdown (shutdown w') = false
  ∧ pending (motorQueue w') = rest
  ∧ totalMotorTime (quota w') = totalMotorTime (quota (history [Loop] w))
  ∧ totalMotorTime (quota w')
    = (if bool_decide
            (time.add (totalMotorTime (quota w)) (Duration req) > motorQuota)
       then totalMotorTime (quota w)
       else time.add (totalMotorTime (quota w)) (Duration req)).
Proof.
  intros Hf Hs Hbuf Hsq Hout Hcode w'.
  destruct (AdminForceShutdown_done c_down w r Hout Hcode)
    as (reason & user & Hdown).
  unfold w', history. cbn [foldl apply_op].
  rewrite Hdown, AdminRestart_unfold. cbn [snd].
  match goal with |- context [processMotorQueue 1 ?v] => set (w2 := v) end.
  destruct (time_Now_frozen w Hf) as [_ Hf1].
  assert (frozen w2) as Hf2.
  { unfold w2. apply time_Now_frozen. done. }
  destruct (processMotorQueue_frozen req rest w2 Hf2 eq_refl Hbuf Hsq)
    as (_ & Hs2 & Hbuf2 & Hsq2 & _ & _ & Htot2).
  destruct (processMotorQueue_frozen req rest w Hf Hs Hbuf Hsq)
    as (_ & _ & _ & _ & _ & _ & Htot).
  change (totalMotorTime (quota w2)) with (totalMotorTime (quota w)) in Htot2.
  split; [by rewrite Hs2|]. split.
  - unfold pending. by rewrite Hbuf2, Hsq2, app_nil_r.
  - by rewrite Htot, Htot2.
Qed.

Lemma queued_request_survives_shutdown_witness :
  isShutdown (shutdown (history
    [ForceShutdown (admin_request "maintenance" 1);
     Restart (admin_request "" 1); Loop]
    (EnqueueMotorRequest (motor_request 60 7) idle).2)) = false.
Proof.
  refine (proj1 (queued_request_survives_shutdown
    (admin_request "maintenance" 1) (admin_request "" 1)
    (gin.JSON http.StatusOK
       {[ "message" := VString "Motor system shut down successfully";
          "reason" := VString "maintenance";
          "shutdown_by" := VString "admin@example.com";
          "shutdown_at" := VTime 0 ]})
    {| UserID := 0; RequestAt := 0; Duration := time.mul 60 time.Second |} []
    (EnqueueMotorRequest (motor_request 60 7) idle).2 _ _ _ _ _ _)).
  - split; [reflexivity | vm_compute; discriminate].
  - reflexivity.
  - reflexivity.
  - reflexivity.
  - vm_compute. reflexivity.
  - reflexivity.
Defined.



(** X8. SendCommand looks at no state: right after a force shutdown that
    went through, a bound command is still handed to the broker with the
    caller's topic and payload (so "on" on "motor/control" follows the
    shutdown's "off"), while the system stays shut down and the quota and the
    queue are untouched. *)
Theorem command_reaches_the_motor_during_shutdown
    (c_down : gin.Context) (r : gin.Response) (topic payload : string)
    (publish_err : option string) (w : World) :
  (AdminForceShutdown c_down w).1 = Responded r →
  gin.code r = http.StatusOK →
  let w' := history [ForceShutdown c_down;
                     Command (inr (topic, payload)) publish_err] w in
  isShutdown (shutdown w') = true
  ∧ trace (env w')
    = trace (env w) ++ [Publish "motor/control" "off"; Publish topic payload]
  ∧ quota w' = quota w
  ∧ motorQueue w' = motorQueue w.
Proof.
  intros Hout Hcode w'.
  destruct (AdminForceShutdown_done c_down w r Hout Hcode)
    as (reason & user & Hdown).
  unfold w', history. cbn [foldl apply_op]. rewrite Hdown. cbn [snd].
  unfold handlers_more.SendCommand. st_unfold. st_prims. st_unfold.
  destruct publish_err; cbn; by rewrite <- app_assoc.
Qed.

Lemma command_reaches_the_motor_during_shutdown_witness :
  isShutdown (shutdown (history
    [ForceShutdown (admin_request "maintenance" 1);
     Command (inr ("motor/control", "on")) None] idle)) = true.
Proof.
  refine (proj1 (command_reaches_the_motor_during_shutdown
    (admin_request "maintenance" 1)
    (gin.JSON http.StatusOK
       {[ "message" := VString "Motor system shut down successfully";
          "reason" := VString "maintenance";
          "shutdown_by" := VString "admin@example.com";
          "shutdown_at" := VTime 0 ]}) "motor/control" "on" None idle _ _)).
  - vm_compute. reflexivity.
  - reflexivity.
Defined.

End runs_shutdown.


(** ** The middleware in a chain *)

Section chain.
Import middleware.

Lemma parse_bearer_ok c claims :
  Authorization c ≠ "" →
  String.prefix "Bearer " (Authorization c) = true →
  jwt_Parse (server c) (TrimPrefix_Bearer (Authorization c))
    (config.JWTSecret (config.Load (environ (server c)))) = Some claims →
  parse_bearer c = inr claims.
Proof.
  intros Hne Hp Hj. unfold parse_bearer.
  rewrite bool_decide_eq_false_2 by done. rewrite Hp. cbn zeta.
  cbn [orb negb]. by rewrite Hj.
Qed.

Lemma parse_bearer_bad c :
  Authorization c = "" ∨ String.prefix "Bearer " (Authorization c) = false
  ∨ jwt_Parse (server c) (TrimPrefix_Bearer (Authorization c))
      (config.JWTSecret (config.Load (environ (server c)))) = None →
  ∃ msg, parse_bearer c =
    inl (AbortWithStatusJSON http.StatusUnauthorized
           {[ "error" := VString msg ]} c).
Proof.
  unfold parse_bearer. intros [He | [Hp | Hj]].
  - rewrite bool_decide_eq_true_2 by done. cbn. eauto.
  - rewrite Hp. rewrite orb_true_r. eauto.
  - destruct (_ || _); [eauto|]. cbn zeta. rewrite Hj. eauto.
Qed.

(** One turn of the loop of [c.Next()], and its end. *)
Lemma Next_loop_step fuel c h w :
  0 <= index c →
  handlers c !! Z.to_nat (index c) = Some h →
  Next_loop (S fuel) c w =
    let '(c', w') :=
      dispatch (λ c, Next_loop fuel (set_index (index c + 1) c)) h c w in
    Next_loop fuel (set_index (index c' + 1) c') w'.
Proof.
  intros Hi Hh. cbn [Next_loop]. rewrite bool_decide_eq_true_2 by done.
  by rewrite Hh.
Qed.

Lemma Next_loop_end fuel c w :
  handlers c !! Z.to_nat (index c) = None → Next_loop fuel c w = (c, w).
Proof.
  intros Hh. destruct fuel; [done|]. cbn [Next_loop].
  rewrite Hh. by destruct (bool_decide _).
Qed.

(** X12. Every revision of AuthMiddleware, and AdminMiddleware, answers
    401 and stops the chain when the Authorization header is empty, lacks
    the "Bearer " prefix or carries a token that does not parse: no later
    handler runs and the world is untouched. *)
Theorem bad_token_stops_the_chain
    (fuel : nat) (srv : Server) (h : Handler) (rest : list Handler)
    (header : string) (body : gin.Body) (w : World) :
  h ∈ [UseAuth; UseAuthSub; UseAuthPlain; UseAdmin] →
  (length (h :: rest) < Z.to_nat abortIndex)%nat →
  header = "" ∨ String.prefix "Bearer " header = false
  ∨ jwt_Parse srv (TrimPrefix_Bearer header)
      (config.JWTSecret (config.Load (environ srv))) = None →
  ∃ msg : string,
    written (ServeHTTP (S fuel) srv (h :: rest) header body w).1
    = [Responded (gin.JSON http.StatusUnauthorized {[ "error" := VString msg ]})]
    ∧ (ServeHTTP (S fuel) srv (h :: rest) header body w).2 = w.
Proof.
  intros Hh Hlen Hbad.
  set (c0 := {| Authorization := header; request_body := body; keys := ∅;
                handlers := h :: rest; index := 0; written := [];
                server := srv |}).
  change (ServeHTTP (S fuel) srv (h :: rest) header body)
    with (Next_loop (S fuel) c0).
  destruct (parse_bearer_bad c0 Hbad) as [msg Hparse]. exists msg.
  rewrite (Next_loop_step fuel c0 h) by done.
  assert (∀ Nx, dispatch Nx h c0 w =
     (AbortWithStatusJSON http.StatusUnauthorized {[ "error" := VString msg ]} c0, w))
    as Hd.
  { intros Nx. repeat (apply elem_of_cons in Hh as [-> | Hh]);
      [..|by apply elem_of_nil in Hh]; cbn [dispatch];
      unfold AuthMiddleware, AuthMiddleware_sub, AuthMiddleware_plain,
        AdminMiddleware, AuthMiddleware; st_unfold; rewrite Hparse; done. }
  rewrite Hd. rewrite Next_loop_end; [done|].
  apply lookup_ge_None_2. cbn in *. lia.
Qed.

Lemma bad_token_stops_the_chain_witness :
  ∃ msg : string,
    written (ServeHTTP 1 (toy_server 1)
      [UseAdmin; Endpoint handlers_shutdown.AdminForceShutdown]
      "Basic good" (gin.Object {[ "reason" := JString "stop" ]}) idle).1
    = [Responded (gin.JSON http.StatusUnauthorized
         {[ "error" := VString msg ]})]
    ∧ (ServeHTTP 1 (toy_server 1)
         [UseAdmin; Endpoint handlers_shutdown.AdminForceShutdown]
         "Basic good" (gin.Object {[ "reason" := JString "stop" ]}) idle).2
      = idle.
Proof.
  apply bad_token_stops_the_chain.
  - apply list_elem_of_In. cbn. auto.
  - vm_compute. lia.
  - right. left. reflexivity.
Defined.

Ltac chain_end :=
  rewrite Next_loop_end
    by (apply lookup_ge_None_2; cbn; unfold abortIndex; lia).

Lemma run_endpoint_spec f c w :
  ∃ i, run_endpoint f c w = (write (f (context c) w).1 (set_index i c),
                             (f (context c) w).2)
       ∧ (i = index c ∨ i = abortIndex)
       ∧ ((∃ r, (f (context c) w).1 = Responded r) → i = index c).
Proof.
  unfold run_endpoint. st_unfold.
  destruct (f (context c) w) as [[r| |] w'] eqn:Hf; cbn [fst snd].
  - exists (index c). split; [by destruct c|]. split; [by left | done].
  - exists abortIndex. split; [done|]. split; [by right|]. by intros [? [=]].
  - exists abortIndex. split; [done|]. split; [by right|]. by intros [? [=]].
Qed.

(** X13. With a valid bearer token, AuthMiddleware of middleware/auth.go
    stores the "user_id" claim, if there is one, and nothing else, and the
    endpoint behind it runs exactly once on that context; the first revision
    stores nothing and runs the endpoint once. *)
Theorem auth_runs_the_endpoint_once
    (fuel : nat) (srv : Server) (f : gin.Context → St Outcome)
    (header : string) (body : gin.Body) (claims : gmap string Value)
    (w : World) :
  header ≠ "" →
  String.prefix "Bearer " header = true →
  jwt_Parse srv (TrimPrefix_Bearer header)
    (config.JWTSecret (config.Load (environ srv))) = Some claims →
  let ctx :=
    {| gin.body := body;
       gin.keys := match claims !! "user_id" with
                   | Some userID => <["user_id" := userID]> ∅
                   | None => ∅
                   end |} in
  (ServeHTTP (S (S fuel)) srv [UseAuth; Endpoint f] header body w).2
  = (f ctx w).2
  ∧ written (ServeHTTP (S (S fuel)) srv [UseAuth; Endpoint f] header body w).1
    = [(f ctx w).1]
  ∧ (ServeHTTP (S (S fuel)) srv [UseAuthPlain; Endpoint f] header body w).2
    = (f {| gin.body := body; gin.keys := ∅ |} w).2
  ∧ written
      (ServeHTTP (S (S fuel)) srv [UseAuthPlain; Endpoint f] header body w).1
    = [(f {| gin.body := body; gin.keys := ∅ |} w).1].
Proof.
  intros Hne Hp Hj ctx.
  assert (∀ h k,
    let c0 := {| Authorization := header; request_body := body; keys := ∅;
                 handlers := [h; Endpoint f]; index := 0; written := [];
                 server := srv |} in
    let c1 := {| Authorization := header; request_body := body; keys := k;
                 handlers := [h; Endpoint f]; index := 1; written := [];
                 server := srv |} in
    (∀ Nx, dispatch Nx h c0 w = Nx (set_index 0 c1) w) →
    (ServeHTTP (S (S fuel)) srv [h; Endpoint f] header body w).2
    = (f {| gin.body := body; gin.keys := k |} w).2
    ∧ written (ServeHTTP (S (S fuel)) srv [h; Endpoint f] header body w).1
      = [(f {| gin.body := body; gin.keys := k |} w).1]) as Hgen.
  { intros h k c0 c1 Hd.
    change (ServeHTTP (S (S fuel)) srv [h; Endpoint f] header body)
      with (Next_loop (S (S fuel)) c0).
    rewrite (Next_loop_step (S fuel) c0 h) by done.
    rewrite Hd. change (set_index (index (set_index 0 c1) + 1) (set_index 0 c1))
      with c1.
    rewrite (Next_loop_step fuel c1 (Endpoint f)) by done.
    cbn [dispatch].
    destruct (run_endpoint_spec f c1 w) as (i & -> & Hi & _).
    change (context c1) with {| gin.body := body; gin.keys := k |}.
    destruct Hi as [-> | ->]; do 2 chain_end; done. }
  split; [|split; [|apply (Hgen UseAuthPlain ∅)]].
  1,2: apply (Hgen UseAuth).
  all: intros Nx; cbn [dispatch]; unfold AuthMiddleware, AuthMiddleware_plain;
    rewrite (parse_bearer_ok _ claims) by done.
  1,2: by destruct (claims !! "user_id").
  done.
Qed.

Lemma auth_runs_the_endpoint_once_witness :
  written (ServeHTTP 2 (toy_server 7)
    [UseAuth; Endpoint handlers_shutdown.EnqueueMotorRequest]
    "Bearer good" (gin.Object {[ "duration" := JInt 60 ]}) idle).1
  = [queued].
Proof.
  refine (proj1 (proj2 (auth_runs_the_endpoint_once 0 (toy_server 7)
    handlers_shutdown.EnqueueMotorRequest "Bearer good"
    (gin.Object {[ "duration" := JInt 60 ]})
    {[ "user_id" := VFloat64 7; "sub" := VFloat64 7 ]} idle _ _ _))).
  - discriminate.
  - reflexivity.
  - reflexivity.
Defined.

(** X14. The revision of AuthMiddleware that reads the "sub" claim: with
    a valid token whose "sub" is a number, "userID" is stored as a uint and
    the endpoint runs exactly once, although c.Next() is called twice; with
    any other valid token the answer is 401 "invalid user ID in token" and
    the endpoint does not run. *)
Theorem auth_sub_needs_a_numeric_sub
    (fuel : nat) (srv : Server) (f : gin.Context → St Outcome)
    (header : string) (body : gin.Body) (claims : gmap string Value)
    (w : World) :
  header ≠ "" →
  String.prefix "Bearer " header = true →
  jwt_Parse srv (TrimPrefix_Bearer header)
    (config.JWTSecret (config.Load (environ srv))) = Some claims →
  match claims !! "sub" with
  | Some (VFloat64 userID) =>
      let ctx := {| gin.body := body;
                    gin.keys := <["userID" := VUint userID]> ∅ |} in
      (ServeHTTP (S (S fuel)) srv [UseAuthSub; Endpoint f] header body w).2
      = (f ctx w).2
      ∧ written
          (ServeHTTP (S (S fuel)) srv [UseAuthSub; Endpoint f] header body w).1
        = [(f ctx w).1]
  | _ =>
      (ServeHTTP (S (S fuel)) srv [UseAuthSub; Endpoint f] header body w).2 = w
      ∧ written
          (ServeHTTP (S (S fuel)) srv [UseAuthSub; Endpoint f] header body w).1
        = [Responded (gin.JSON http.StatusUnauthorized
             {[ "error" := VString "invalid user ID in token" ]})]
  end.
Proof.
  intros Hne Hp Hj.
  set (c0 := {| Authorization := header; request_body := body; keys := ∅;
                handlers := [UseAuthSub; Endpoint f]; index := 0;
                written := []; server := srv |}).
  change (ServeHTTP (S (S fuel)) srv [UseAuthSub; Endpoint f] header body)
    with (Next_loop (S (S fuel)) c0).
  rewrite (Next_loop_step (S fuel) c0 UseAuthSub) by done.
  cbn [dispatch]. unfold AuthMiddleware_sub.
  rewrite (parse_bearer_ok c0 claims) by done.
  destruct (claims !! "sub") as [[]|]; try (cbn [mret St_ret]; chain_end; done).
  st_unfold.
  match goal with |- context [Next_loop (S fuel) ?c] => set (c1 := c) end.
  rewrite (Next_loop_step fuel c1 (Endpoint f)) by done.
  cbn [dispatch].
  destruct (run_endpoint_spec f c1 w) as (i & -> & Hi & _).
  destruct Hi as [-> | ->]; do 3 chain_end; done.
Qed.

Lemma auth_sub_needs_a_numeric_sub_witness :
  written (ServeHTTP 2 (toy_server 7)
    [UseAuthSub; Endpoint handlers.EnqueueMotorRequest]
    "Bearer good" (gin.Object {[ "duration" := JInt 5 ]}) idle).1
  = [queued].
Proof.
  pose proof (auth_sub_needs_a_numeric_sub 0 (toy_server 7)
    handlers.EnqueueMotorRequest "Bearer good"
    (gin.Object {[ "duration" := JInt 5 ]})
    {[ "user_id" := VFloat64 7; "sub" := VFloat64 7 ]} idle) as H.
  destruct H as [_ H]; [discriminate | reflexivity | reflexivity |].
  exact H.
Defined.

(** X15. AdminMiddleware calls AuthMiddleware()(c), and that calls
    c.Next(): with any valid bearer token the endpoint behind
    AdminMiddleware has already run, on the world and with its answer
    written first, before AdminMiddleware looks at the user or the role;
    whatever AdminMiddleware decides is written after it and changes nothing
    in the world. *)
Theorem admin_middleware_runs_the_endpoint_first
    (fuel : nat) (srv : Server) (f : gin.Context → St Outcome)
    (header : string) (body : gin.Body) (claims : gmap string Value)
    (w : World) :
  header ≠ "" →
  String.prefix "Bearer " header = true →
  jwt_Parse srv (TrimPrefix_Bearer header)
    (config.JWTSecret (config.Load (environ srv))) = Some claims →
  let ctx :=
    {| gin.body := body;
       gin.keys := match claims !! "user_id" with
                   | Some userID => <["user_id" := userID]> ∅
                   | None => ∅
                   end |} in
  (ServeHTTP (S (S fuel)) srv [UseAdmin; Endpoint f] header body w).2
  = (f ctx w).2
  ∧ ∃ later : list Outcome,
      written (ServeHTTP (S (S fuel)) srv [UseAdmin; Endpoint f] header body w).1
      = (f ctx w).1 :: later.
Proof.
  intros Hne Hp Hj ctx.
  set (c0 := {| Authorization := header; request_body := body; keys := ∅;
                handlers := [UseAdmin; Endpoint f]; index := 0;
                written := []; server := srv |}).
  change (ServeHTTP (S (S fuel)) srv [UseAdmin; Endpoint f] header body)
    with (Next_loop (S (S fuel)) c0).
  rewrite (Next_loop_step (S fuel) c0 UseAdmin) by done.
  cbn [dispatch]. unfold AdminMiddleware, AuthMiddleware.
  rewrite (parse_bearer_ok c0 claims) by done. st_unfold.
  assert (∃ k, (match claims !! "user_id" with
                | Some userID => Set_key "user_id" userID c0
                | None => c0 end)
               = {| Authorization := header; request_body := body; keys := k;
                    handlers := [UseAdmin; Endpoint f]; index := 0;
                    written := []; server := srv |}
               ∧ ctx = {| gin.body := body; gin.keys := k |}) as (k & Hc & Hctx).
  { unfold ctx. destruct (claims !! "user_id"); eexists; split; done. }
  replace (match claims !! "user_id" with
           | Some userID => Next_loop (S fuel)
               (set_index (index (Set_key "user_id" userID c0) + 1)
                  (Set_key "user_id" userID c0))
           | None => Next_loop (S fuel) (set_index (index c0 + 1) c0)
           end)
    with (Next_loop (S fuel)
            {| Authorization := header; request_body := body; keys := k;
               handlers := [UseAdmin; Endpoint f]; index := 1;
               written := []; server := srv |}).
  2:{ destruct (claims !! "user_id"); injection Hc as <-; done. }
  match goal with |- context [Next_loop (S fuel) ?c] => set (c1 := c) end.
  rewrite (Next_loop_step fuel c1 (Endpoint f)) by done.
  cbn [dispatch].
  destruct (run_endpoint_spec f c1 w) as (i & -> & Hi & _).
  change (context c1) with {| gin.body := body; gin.keys := k |}.
  rewrite <- Hctx.
  destruct Hi as [-> | ->]; chain_end; unfold IsAborted;
    cbn [index set_index write].
  2:{ rewrite bool_decide_eq_true_2 by (unfold abortIndex; lia).
      chain_end. split; [done|]. by exists []. }
  rewrite bool_decide_eq_false_2 by (unfold c1, abortIndex; cbn; lia).
  cbn [keys set_index write].
  destruct (keys c1 !! "user_id") as [[]|]; cbn [mret St_ret];
    try (chain_end; split; [done|]; by eexists).
  unfold handlers_shutdown.DB_First. st_unfold.
  destruct (if dbFailing _ then None else _) as [user|];
    [|chain_end; split; [done|]; by eexists].
  case_bool_decide; cbn [mret St_ret];
    [chain_end; split; [done|]; by eexists|].
  do 2 chain_end. split; [done|]. by exists [].
Qed.

Lemma admin_middleware_runs_the_endpoint_first_witness :
  isShutdown (shutdown (ServeHTTP 2 (toy_server 2)
    [UseAdmin; Endpoint handlers_shutdown.AdminForceShutdown]
    "Bearer good" (gin.Object {[ "reason" := JString "stop" ]}) staffed).2)
  = true.
Proof.
  rewrite (proj1 (admin_middleware_runs_the_endpoint_first 0 (toy_server 2)
    handlers_shutdown.AdminForceShutdown "Bearer good"
    (gin.Object {[ "reason" := JString "stop" ]})
    {[ "user_id" := VFloat64 2; "sub" := VFloat64 2 ]} staffed
    ltac:(discriminate) eq_refl eq_refl)).
  reflexivity.
Defined.

(** X16. With a valid token naming a user of the table, and an endpoint
    that answers, AdminMiddleware adds nothing for an admin (the endpoint is
    not run a second time) and for anyone else appends 403 "admin access
    required" behind the answer the endpoint has already written. *)
Theorem admin_middleware_judges_after_the_answer
    (fuel : nat) (srv : Server) (f : gin.Context → St Outcome)
    (header : string) (body : gin.Body) (claims : gmap string Value)
    (uid : N) (user : models.User) (r : gin.Response) (w : World) :
  header ≠ "" →
  String.prefix "Bearer " header = true →
  jwt_Parse srv (TrimPrefix_Bearer header)
    (config.JWTSecret (config.Load (environ srv))) = Some claims →
  claims !! "user_id" = Some (VFloat64 uid) →
  let ctx := {| gin.body := body;
                gin.keys := <["user_id" := VFloat64 uid]> ∅ |} in
  (f ctx w).1 = Responded r →
  dbFailing (env (f ctx w).2) = false →
  find (λ u, bool_decide (models.ID u = uid)) (users (env (f ctx w).2))
  = Some user →
  written (ServeHTTP (S (S fuel)) srv [UseAdmin; Endpoint f] header body w).1
  = if bool_decide (models.Role user = "admin")
    then [Responded r]
    else [Responded r;
          Responded (gin.JSON 403
            {[ "error" := VString "admin access required" ]})].
Proof.
  intros Hne Hp Hj Hu ctx Hr Hdb Hfind.
  set (c0 := {| Authorization := header; request_body := body; keys := ∅;
                handlers := [UseAdmin; Endpoint f]; index := 0;
                written := []; server := srv |}).
  change (ServeHTTP (S (S fuel)) srv [UseAdmin; Endpoint f] header body)
    with (Next_loop (S (S fuel)) c0).
  rewrite (Next_loop_step (S fuel) c0 UseAdmin) by done.
  cbn [dispatch]. unfold AdminMiddleware, AuthMiddleware.
  rewrite (parse_bearer_ok c0 claims) by done. st_unfold. rewrite Hu.
  match goal with |- context [Next_loop (S fuel) ?c] => set (c1 := c) end.
  rewrite (Next_loop_step fuel c1 (Endpoint f)) by done.
  cbn [dispatch].
  destruct (run_endpoint_spec f c1 w) as (i & -> & _ & Hi).
  change (context c1) with ctx in *. rewrite (Hi (ex_intro _ r Hr)), Hr.
  chain_end. unfold IsAborted. cbn [index set_index write].
  rewrite bool_decide_eq_false_2 by (unfold c1, abortIndex; cbn; lia).
  cbn [keys set_index write].
  change (keys c1 !! "user_id") with (<["user_id" := VFloat64 uid]> (∅ : gmap string Value) !! "user_id").
  rewrite lookup_insert_eq.
  unfold handlers_shutdown.DB_First. st_unfold. rewrite Hdb, Hfind.
  destruct (decide (models.Role user = "admin")) as [Hrole | Hrole].
  - rewrite (bool_decide_eq_false_2 (_ ≠ _)) by (by intros ?).
    rewrite bool_decide_eq_true_2 by done. by do 2 chain_end.
  - rewrite (bool_decide_eq_true_2 (_ ≠ _)) by done.
    rewrite bool_decide_eq_false_2 by done. cbn [mret St_ret]. by chain_end.
Qed.

Lemma admin_middleware_judges_after_the_answer_witness :
  written (ServeHTTP 2 (toy_server 2)
    [UseAdmin; Endpoint handlers_shutdown.AdminRestart]
    "Bearer good" gin.Malformed staffed).1
  = [Responded (gin.JSON http.StatusOK
       {[ "message" := VString "Motor system restarted successfully";
          "restart_at" := VTime 0 ]});
     Responded (gin.JSON 403
       {[ "error" := VString "admin access required" ]})].
Proof.
  refine (admin_middleware_judges_after_the_answer 0 (toy_server 2)
    handlers_shutdown.AdminRestart "Bearer good" gin.Malformed
    {[ "user_id" := VFloat64 2; "sub" := VFloat64 2 ]} 2
    {| models.ID := 2; models.Email := "user@example.com";
       models.Password := "hash"; models.Role := "user" |}
    (gin.JSON http.StatusOK
       {[ "message" := VString "Motor system restarted successfully";
          "restart_at" := VTime 0 ]})
    staffed _ _ _ _ _ _ _).
  - discriminate.
  - reflexivity.
  - reflexivity.
  - reflexivity.
  - reflexivity.
  - reflexivity.
  - reflexivity.
Defined.
End chain.


(** ** The configuration *)

Section configuration.

Lemma getEnv_nonempty environ key fallback :
  fallback ≠ "" → config.getEnv environ key fallback ≠ "".
Proof.
  intros Hf. unfold config.getEnv. by case_bool_decide.
Qed.

Lemma getEnv_unset environ key fallback :
  environ !! key = None ∨ environ !! key = Some "" →
  config.getEnv environ key fallback = fallback.
Proof.
  intros [H | H]; unfold config.getEnv, config.Getenv; rewrite H; done.
Qed.

(** X17. Whatever the environment, no text field of the loaded
    configuration is empty, an empty variable counting as unset; the JWT
    secret is the built-in "supersecret" exactly when JWT_SECRET is unset,
    empty or that very text. *)
Theorem config_is_never_empty (environ : gmap string string) :
  config.DBPath (config.Load environ) ≠ ""
  ∧ config.MQTTBroker (config.Load environ) ≠ ""
  ∧ config.JWTSecret (config.Load environ) ≠ ""
  ∧ config.AdminEmail (config.Load environ) ≠ ""
  ∧ config.AdminPassword (config.Load environ) ≠ ""
  ∧ (config.JWTSecret (config.Load environ) = "supersecret"
     ↔ environ !! "JWT_SECRET" = None ∨ environ !! "JWT_SECRET" = Some ""
       ∨ environ !! "JWT_SECRET" = Some "supersecret").
Proof.
  repeat split; try (by apply getEnv_nonempty).
  - cbn. unfold config.getEnv, config.Getenv.
    destruct (environ !! "JWT_SECRET") as [v|]; cbn; [|by left].
    case_bool_decide as Hv; [|subst; auto].
    intros ->. auto.
  - intros [H | [H | H]]; cbn.
    + apply getEnv_unset. by left.
    + apply getEnv_unset. by right.
    + unfold config.getEnv, config.Getenv. by rewrite H.
Qed.

(** X18. The default admin is created unless CREATE_ADMIN is set to a
    non-empty text other than "true": unset and empty both mean yes. *)
Theorem default_admin_is_opt_out (environ : gmap string string) :
  config.CreateAdmin (config.Load environ) = true
  ↔ environ !! "CREATE_ADMIN" = None ∨ environ !! "CREATE_ADMIN" = Some ""
    ∨ environ !! "CREATE_ADMIN" = Some "true".
Proof.
  cbn. rewrite bool_decide_eq_true.
  unfold config.getEnv, config.Getenv.
  destruct (environ !! "CREATE_ADMIN") as [v|]; cbn; [|by intuition].
  case_bool_decide as Hv.
  - split; [intros ->; auto|]. intros [? | [[= ->] | [= ->]]]; done.
  - subst. intuition.
Qed.

End configuration.

(** ** The users table *)

Section users_table.
Import database user.

Lemma DB_Create_spec u w :
  (∃ row,
     DB_Create u w = (true, set_env (set_users (users (env w) ++ [row]) (env w)) w)
     ∧ dbFailing (env w) = false
     ∧ (models.Email u ∉ (models.Email <$> users (env w)))
     ∧ models.Email row = models.Email u
     ∧ models.Password row = models.Password u
     ∧ models.Role row = (if bool_decide (models.Role u = "") then "user"
                          else models.Role u))
  ∨ DB_Create u w = (false, w).
Proof.
  unfold DB_Create. destruct (dbFailing (env w)) eqn:Hd; cbn; [by right|].
  case_bool_decide as Hin; [by right|]. left. eexists. by repeat split.
Qed.


(** With an admin in the table and the database up, nothing is created. *)
Lemma createDefaultAdmin_present environ hash w :
  dbFailing (env w) = false →
  filter (λ u, models.Role u = "admin") (users (env w)) ≠ [] →
  createDefaultAdmin environ hash w = (false, w).
Proof.
  intros Hd Hadm. unfold createDefaultAdmin. cbn zeta.
  destruct (negb _); [done|]. unfold DB_Count_admins. st_unfold. rewrite Hd.
  rewrite bool_decide_eq_false_2; [done|].
  destruct (filter _ _); [done|]. cbn. lia.
Qed.

(** X19. createDefaultAdmin adds at most one user, an admin with the
    configured e-mail; it adds none when the table already has an admin, and
    running it again changes nothing. *)
Theorem default_admin_is_created_once
    (environ : gmap string string) (hash : string → option string)
    (w : World) :
  let w' := (createDefaultAdmin environ hash w).2 in
  (createDefaultAdmin environ hash w').2 = w'
  ∧ (∃ new : list models.User,
       users (env w') = users (env w) ++ new
       ∧ (length new ≤ 1)%nat
       ∧ Forall (λ u, models.Role u = "admin"
                      ∧ models.Email u
                        = config.AdminEmail (config.Load environ)) new)
  ∧ (dbFailing (env w) = false →
     filter (λ u, models.Role u = "admin") (users (env w)) ≠ [] →
     w' = w).
Proof.
  intros w'.
  assert (w' = w ∨
          ∃ row, users (env w') = users (env w) ++ [row]
                 ∧ dbFailing (env w') = false
                 ∧ models.Role row = "admin"
                 ∧ models.Email row = config.AdminEmail (config.Load environ)
                 ∧ createDefaultAdmin environ hash w ≠ (true, w)
                 ∧ filter (λ u, models.Role u = "admin") (users (env w)) = [])
    as Hcases.
  { unfold w', createDefaultAdmin. cbn zeta.
    destruct (negb _); [by left|]. unfold DB_Count_admins. st_unfold.
    case_bool_decide as Hc; [|by left].
    destruct (hash _) as [h|]; [|by left].
    match goal with |- context [DB_Create ?u w] =>
      destruct (DB_Create_spec u w)
        as [(row & -> & Hd & _ & He & _ & Hr) | ->] end; [|by left].
    right. exists row. cbn in *. rewrite Hd in Hc.
    repeat split; try done.
    destruct (filter _ _); [done|]. cbn in Hc. lia. }
  split; [|split].
  - destruct Hcases as [Heq | (row & Hu & Hd & Hr & _)];
      [rewrite Heq; exact Heq|].
    rewrite createDefaultAdmin_present; [done | done |].
    rewrite Hu, filter_app, filter_cons_True by done.
    by destruct (filter _ (users (env w))).
  - destruct Hcases as [Heq | (row & Hu & _ & Hr & He & _)].
    + exists []. rewrite Heq, app_nil_r.
      repeat split; [cbn; lia | constructor].
    + exists [row]. repeat split; [done | cbn; lia | by repeat constructor].
  - intros Hd Hadm. unfold w'. by rewrite createDefaultAdmin_present.
Qed.

Lemma default_admin_is_created_once_witness :
  (createDefaultAdmin ∅ (λ password, Some password) idle).2 = idle.
Proof.
  refine (proj2 (proj2 (default_admin_is_created_once ∅
    (λ password, Some password) idle)) _ _).
  - reflexivity.
  - vm_compute. discriminate.
Defined.

Lemma ShouldBindJSON_Register_nonempty c email password :
  ShouldBindJSON_Register c = inr (email, password) →
  email ≠ "" ∧ password ≠ "".
Proof.
  unfold ShouldBindJSON_Register.
  destruct (gin.body c) as [|fields]; [done|].
  destruct (fields !! "email") as [[]|]; try done.
  case_bool_decide; [done|].
  destruct (fields !! "password") as [[]|]; try done.
  case_bool_decide; [done|]. by intros [= <- <-].
Qed.

(** X20. Register either answers 200 and adds exactly one user, with the
    given non-empty e-mail, not taken before, the hash of the password and
    the role "user" (never "admin"), or it answers 400 and leaves the world
    as it was. *)
Theorem register_adds_one_ordinary_user
    (hash : string → option string) (db_error : string)
    (c : gin.Context) (w : World) :
  (∃ (email password : string) (row : models.User),
     ShouldBindJSON_Register c = inr (email, password)
     ∧ email ≠ "" ∧ password ≠ ""
     ∧ (email ∉ (models.Email <$> users (env w)))
     ∧ (Register hash db_error c w).1 =
         Responded (gin.JSON http.StatusOK
           {[ "message" := VString "registration successful" ]})
     ∧ users (env (Register hash db_error c w).2) = users (env w) ++ [row]
     ∧ models.Email row = email
     ∧ models.Password row = default "" (hash password)
     ∧ models.Role row = "user")
  ∨ ((Register hash db_error c w).2 = w
     ∧ ∃ obj, (Register hash db_error c w).1 =
                Responded (gin.JSON http.StatusBadRequest obj)).
Proof.
  unfold Register.
  destruct (ShouldBindJSON_Register c) as [err|[email password]] eqn:Hb;
    [right; split; [done|]; by eexists|].
  st_unfold.
  match goal with |- context [DB_Create ?u w] =>
    destruct (DB_Create_spec u w)
      as [(row & -> & Hd & Hin & He & Hp & Hr) | ->] end;
    [|right; split; [done|]; by eexists].
  left. exists email, password, row. cbn in *.
  destruct (ShouldBindJSON_Register_nonempty c email password Hb).
  repeat split; done.
Qed.

End users_table.


(** ** More on the revision with the activation log *)

Section audit_more.

(** X9. The loop of handlers/mqtt.go does not check the quota: a request
    that takes the accumulated time over the quota is still driven (on,
    hold, off) and charged, where the loop of the shutdown revision drops it
    and leaves the counter alone. *)
Theorem loop_drives_the_motor_over_quota (req : MotorRequest) (w : World) :
  let seen := totalMotorTime (quota (quotaWindowReset w).2) in
  time.add seen (Duration req) > motorQuota →
  (trace (env (handlers.processMotorQueue_body req w).2)
   = trace (env w) ++ actuation req
   ∧ totalMotorTime (quota (handlers.processMotorQueue_body req w).2)
     = time.add seen (Duration req))
  ∧ (isShutdown (shutdown w) = false →
     trace (env (handlers_shutdown.processMotorQueue_body req w).2)
     = trace (env w)
     ∧ totalMotorTime (quota (handlers_shutdown.processMotorQueue_body req w).2)
       = seen).
Proof.
  intros seen Hover. split.
  - by destruct (processMotorQueue_body_effect req w) as (_ & _ & _ & Ht & Hq).
  - intros Hs.
    rewrite (processMotorQueue_body_normal req w Hs). cbn zeta. fold seen.
    rewrite bool_decide_eq_true_2 by done. cbn [snd].
    by rewrite (proj2 (proj2 (proj2 (proj2 (proj2 (quotaWindowReset_frame w)))))).
Qed.

Lemma loop_drives_the_motor_over_quota_witness :
  totalMotorTime (quota (handlers.processMotorQueue_body
    {| UserID := 0; RequestAt := 0; Duration := time.mul 20 time.Minute |}
    (set_quota {| totalMotorTime := time.mul 50 time.Minute;
                  quotaResetTime := time.mul 24 time.Hour |} idle)).2)
  = time.mul 70 time.Minute.
Proof.
  refine (proj2 (proj1 (loop_drives_the_motor_over_quota
    {| UserID := 0; RequestAt := 0; Duration := time.mul 20 time.Minute |}
    (set_quota {| totalMotorTime := time.mul 50 time.Minute;
                  quotaResetTime := time.mul 24 time.Hour |} idle) _))).
  vm_compute. reflexivity.
Defined.

(** X10. In handlers/mqtt.go the quota is checked before the caller's
    identity: a bound request without "userID" in the context is answered
    429 when it does not fit and 401 "user ID not found in token" when it
    does; either way no row is written and nothing is queued, while the
    window block has already been applied. *)
Theorem admission_checks_quota_before_identity
    (c : gin.Context) (n : Z) (w : World) :
  gin.ShouldBindJSON_Duration c = inr n →
  gin.keys c !! "userID" = None →
  let w1 := (quotaWindowReset w).2 in
  handlers.EnqueueMotorRequest c w =
    (Responded
       (if bool_decide
             (time.add (totalMotorTime (quota w1))
                (time.mul (time.of_int n) time.Minute) > motorQuota)
        then gin.JSON http.StatusTooManyRequests
               {[ "error" :=
                    VString "Daily motor-on quota reached. Try again after 24 hours." ]}
        else gin.JSON http.StatusUnauthorized
               {[ "error" := VString "user ID not found in token" ]}),
     w1)
  ∧ activations (env w1) = activations (env w)
  ∧ motorQueue w1 = motorQueue w
  ∧ trace (env w1) = trace (env w).
Proof.
  intros Hb Hk w1.
  pose proof (quotaWindowReset_frame w) as (Hq & _ & _ & Ha & _ & Ht).
  split; [|done].
  unfold handlers.EnqueueMotorRequest. st_unfold. rewrite Hb.
  unfold w1. destruct (quotaWindowReset w) as [[] v]. cbn [snd].
  destruct (bool_decide _); [done|]. by rewrite Hk.
Qed.

Lemma admission_checks_quota_before_identity_witness :
  motorQueue (quotaWindowReset idle).2 = motorQueue idle.
Proof.
  refine (proj1 (proj2 (proj2 (admission_checks_quota_before_identity
    {| gin.body := gin.Object {[ "duration" := JInt 5 ]}; gin.keys := ∅ |}
    5 idle _ _)))).
  - reflexivity.
  - reflexivity.
Defined.

(** X11. For a counter within 2^62 nanoseconds and a requested duration
    within 2^26 seconds or minutes, nothing wraps around: the queued duration
    is the requested one and the quota comparison of both revisions is the
    comparison of the exact sum with one hour. *)
Theorem quota_check_is_exact_in_range (total n : Z) :
  - 2 ^ 62 <= total <= 2 ^ 62 →
  - 2 ^ 26 <= n <= 2 ^ 26 →
  time.mul (time.of_int n) time.Second = n * 1000000000
  ∧ time.mul (time.of_int n) time.Minute = n * 60000000000
  ∧ (time.add total (time.mul (time.of_int n) time.Second) > motorQuota
     ↔ total + n * 1000000000 > 3600000000000)
  ∧ (time.add total (time.mul (time.of_int n) time.Minute) > motorQuota
     ↔ total + n * 60000000000 > 3600000000000).
Proof.
  intros Ht Hn.
  assert (time.of_int n = n) as ->
    by (apply int64_id; unfold time.is_int64; lia).
  assert (time.mul n time.Second = n * 1000000000) as ->.
  { unfold time.mul. change time.Second with 1000000000.
    apply int64_id. unfold time.is_int64. lia. }
  assert (time.mul n time.Minute = n * 60000000000) as ->.
  { unfold time.mul. change time.Minute with 60000000000.
    apply int64_id. unfold time.is_int64. lia. }
  rewrite motorQuota_value.
  rewrite !add_exact by (unfold time.is_int64; lia). done.
Qed.

Lemma quota_check_is_exact_in_range_witness :
  time.mul (time.of_int 60) time.Second = 60 * 1000000000.
Proof.
  refine (proj1 (quota_check_is_exact_in_range 0 60 _ _)); lia.
Defined.

End audit_more.
